(** * The FAISS-backed retrieval store of [backend/vanna_config.py]

    A shallow embedding of [FAISS_VectorStore]: the in-memory store (dimension,
    vector index, metadata ledger), the three files it keeps under its data
    directory, and its public operations, followed by the properties of the
    specification that can be settled on it.

    Python exceptions are values of [exn]; an operation is a function from the
    world (store and disk) to an outcome and the world it leaves behind, so a
    raised exception keeps every mutation made before it, as in Python. *)

From Stdlib Require Import ZArith Ascii String DecimalString DecimalZ DecimalNat.
From stdpp Require Import base option list sorting strings gmap.

Local Open Scope string_scope.
Local Open Scope Z_scope.

(** ** Python built-ins used by the store *)

(** Characters removed by [str.strip()] in the ASCII range. *)
Definition py_isspace (c : ascii) : bool :=
  let n := nat_of_ascii c in
  ((9 <=? n) && (n <=? 13) || (28 <=? n) && (n <=? 32))%nat.

Fixpoint lstrip (l : list ascii) : list ascii :=
  match l with
  | c :: l' => if py_isspace c then lstrip l' else l
  | [] => []
  end.

Definition py_strip (s : string) : string :=
  string_of_list_ascii
    (rev (lstrip (rev (lstrip (list_ascii_of_string s))))).

Definition py_isdigit (c : ascii) : bool :=
  let n := nat_of_ascii c in ((48 <=? n) && (n <=? 57))%nat.

(** The digit groups of an integer literal: digits, with single underscores
    allowed between two digits.  [prev] tells whether the previous character
    was a digit.  Returns the digits with the underscores removed. *)
Fixpoint int_digits (prev : bool) (l : list ascii) : option (list ascii) :=
  match l with
  | [] => if prev then Some [] else None
  | c :: l' =>
      if py_isdigit c then cons c <$> int_digits true l'
      else if (Ascii.eqb c "_" && prev)%bool then int_digits false l'
      else None
  end.

(** [int(s)] on text: surrounding whitespace is ignored, an optional sign,
    then decimal digits.  [None] stands for [ValueError]. *)
Definition py_int (s : string) : option Z :=
  let body (l : list ascii) : option Z :=
    ds ← int_digits false l;
    u ← NilEmpty.uint_of_string (string_of_list_ascii ds);
    Some (Z.of_uint u) in
  match list_ascii_of_string (py_strip s) with
  | c :: l =>
      if Ascii.eqb c "-" then Z.opp <$> body l
      else if Ascii.eqb c "+" then body l
      else body (c :: l)
  | [] => None
  end.

(** [str(n)] for an integer. *)
Definition py_str (z : Z) : string := NilZero.string_of_int (Z.to_int z).

(** Exceptions the store can raise or let through.  [DimensionMismatch] is
    the [ValueError] of [add_embeddings]; [StorageError] stands for whatever
    reading or writing one of the three files raises; [ProviderError] for
    whatever the embedding request raises; the others are Python's own. *)
Inductive exn :=
| DimensionMismatch
| StorageError
| ProviderError
| AssertionError
| AttributeError
| TypeError
| KeyError
| IndexError.

#[global] Instance exn_eq_dec : EqDecision exn.
Proof. solve_decision. Defined.

Inductive outcome (A : Type) :=
| Return (a : A)
| Raise (e : exn).
Arguments Return {A} a.
Arguments Raise {A} e.

(** [l[i]] on a Python list: a negative index counts from the end. *)
Definition list_getitem {A} (l : list A) (i : Z) : outcome A :=
  let n := Z.of_nat (length l) in
  let j := if i <? 0 then i + n else i in
  if (0 <=? j) && (j <? n) then
    match l !! Z.to_nat j with
    | Some x => Return x
    | None => Raise IndexError
    end
  else Raise IndexError.

(** A metadata record is a Python [dict] with string keys and values. *)
Abbreviation dict := (gmap string string).

(** [r[key]] on a dict. *)
Definition dict_getitem (r : dict) (key : string) : outcome string :=
  match r !! key with
  | Some v => Return v
  | None => Raise KeyError
  end.

(** ** The external libraries

    numpy and faiss are not part of the repository.  The store only needs the
    type of vector components, the conversion [np.array(.., dtype=float32)]
    applied to each component, and the labels [IndexFlatL2.search] returns
    for the stored vectors [xb], a query and [k]. *)
Class Faiss := {
  float : Type;
  np_float32 : float -> float;
  knn : list (list float) -> list float -> nat -> list Z;
}.

(** What faiss documents of a flat index searched with [k <= ntotal]: [k]
    labels, each the position of a stored vector. *)
Definition knn_contract `{Faiss} : Prop :=
  forall xb q k,
    (k <= length xb)%nat ->
    length (knn xb q k) = k /\
    Forall (fun l => 0 <= l < Z.of_nat (length xb)) (knn xb q k).

(** ** Data model *)

(** A file written by [faiss.write_index] or [pickle.dump] either reads back
    as the value written, or cannot be read. *)
Inductive blob (A : Type) :=
| Valid (a : A)
| Garbage.
Arguments Valid {A} a.
Arguments Garbage {A}.

(** How one write to a file ends: done, or an I/O error that left the file
    as it was ([clobbered = false]) or truncated ([clobbered = true]). *)
Inductive wres :=
| Written
| Failed (clobbered : bool).

Section Store.
Context `{Faiss}.

(** [faiss.IndexFlatL2]: the width [d] and the stored vectors in insertion
    order; [ntotal] is their number. *)
Record IndexFlatL2 := {
  d : nat;
  xb : list (list float);
}.

Definition ntotal (ix : IndexFlatL2) : nat := length (xb ix).

(** The attributes of [FAISS_VectorStore] that the operations read or write
    ([None] for [index] and [dimension] is Python's [None]). *)
Record FAISS_VectorStore := {
  dimension : option Z;
  index : option IndexFlatL2;
  metadata : list dict;
}.

(** The three files under [self.path]; [None] when the file does not exist. *)
Record disk := {
  index_path : option (blob IndexFlatL2);
  metadata_path : option (blob (list dict));
  dimension_path : option string;
}.

Record world := {
  self : FAISS_VectorStore;
  files : disk;
}.

(** What the environment answers during one public call: the embedding
    provider's response to a text ([None] when the request raises), the
    identifier [uuid.uuid4()] draws, and the result of each file write. *)
Record env := {
  provider : string -> option (list float);
  uuid4 : string;
  io_dimension : wres;
  io_index : wres;
  io_metadata : wres;
}.

(** ** Operations as state transformers that may raise *)

Definition M (A : Type) : Type := world -> outcome A * world.

Definition ret {A} (a : A) : M A := fun w => (Return a, w).
Definition raise {A} (e : exn) : M A := fun w => (Raise e, w).
Definition bind {A B} (m : M A) (k : A -> M B) : M B :=
  fun w =>
    match m w with
    | (Return a, w') => k a w'
    | (Raise e, w') => (Raise e, w')
    end.

Notation "x <- m ;; k" := (bind m (fun x => k))
  (at level 100, m at next level, right associativity).
Notation "m ;; k" := (bind m (fun _ => k))
  (at level 100, right associativity).

Definition get_self : M FAISS_VectorStore := fun w => (Return (self w), w).
Definition set_self (s : FAISS_VectorStore) : M unit :=
  fun w => (Return tt, {| self := s; files := files w |}).
Definition lift {A} (o : outcome A) : M A := fun w => (o, w).

(** A write of [new] to a file whose current state is [old]; a truncated
    file holds [junk]. *)
Definition write_file {A} (io : wres) (new junk : A) (old : option A)
  : outcome unit * option A :=
  match io with
  | Written => (Return tt, Some new)
  | Failed false => (Raise StorageError, old)
  | Failed true => (Raise StorageError, Some junk)
  end.

Definition write_dimension (io : wres) (txt : string) : M unit :=
  fun w =>
    let dk := files w in
    let '(r, f) := write_file io txt "" (dimension_path dk) in
    (r, {| self := self w;
           files := {| index_path := index_path dk;
                       metadata_path := metadata_path dk;
                       dimension_path := f |} |}).

Definition write_index (io : wres) (ix : IndexFlatL2) : M unit :=
  fun w =>
    let dk := files w in
    let '(r, f) := write_file io (Valid ix) Garbage (index_path dk) in
    (r, {| self := self w;
           files := {| index_path := f;
                       metadata_path := metadata_path dk;
                       dimension_path := dimension_path dk |} |}).

Definition pickle_dump (io : wres) (md : list dict) : M unit :=
  fun w =>
    let dk := files w in
    let '(r, f) := write_file io (Valid md) Garbage (metadata_path dk) in
    (r, {| self := self w;
           files := {| index_path := index_path dk;
                       metadata_path := f;
                       dimension_path := dimension_path dk |} |}).

(** [FAISS_VectorStore.__init__]: [embedding_dimension] is the optional
    entry of [config]. *)
Definition __init__ (embedding_dimension : option Z) (dk : disk)
  : outcome FAISS_VectorStore :=
  match index_path dk, metadata_path dk with
  | Some fi, Some fm =>
      match fi with
      | Garbage => Raise StorageError
      | Valid ix =>
          match fm with
          | Garbage => Raise StorageError
          | Valid md =>
              match dimension_path dk with
              | Some txt =>
                  match py_int txt with
                  | Some n =>
                      Return {| dimension := Some n; index := Some ix;
                                metadata := md |}
                  | None => Raise StorageError
                  end
              | None =>
                  Return {| dimension := Some (Z.of_nat (d ix));
                            index := Some ix; metadata := md |}
              end
          end
      end
  | _, _ =>
      Return {| dimension := embedding_dimension; index := None;
                metadata := [] |}
  end.

Definition _init_index (dim : nat) (io : wres) : M unit :=
  s <- get_self ;;
  set_self {| dimension := Some (Z.of_nat dim);
              index := Some {| d := dim; xb := [] |};
              metadata := metadata s |} ;;
  write_dimension io (py_str (Z.of_nat dim)).

(** [index.add(x)] for one row [x]: faiss asserts the width. *)
Definition IndexFlatL2_add (ix : IndexFlatL2) (x : list float)
  : outcome IndexFlatL2 :=
  if decide (length x = d ix) then Return {| d := d ix; xb := xb ix ++ [x] |}
  else Raise AssertionError.

(** [index.search(x, k)] for one query row: the labels of the row. *)
Definition IndexFlatL2_search (ix : IndexFlatL2) (x : list float) (k : nat)
  : outcome (list Z) :=
  if decide (length x = d ix) then Return (knn (xb ix) x k)
  else Raise AssertionError.

Definition _save (e : env) : M unit :=
  s <- get_self ;;
  match index s with
  | None => raise TypeError
  | Some ix =>
      write_index (io_index e) ix ;;
      pickle_dump (io_metadata e) (metadata s)
  end.

Definition add_embeddings (e : env) (embeddings : list float) (md : dict)
  : M unit :=
  s <- get_self ;;
  (match index s with
   | None => _init_index (length embeddings) (io_dimension e)
   | Some _ => ret tt
   end) ;;
  s <- get_self ;;
  if decide (Some (Z.of_nat (length embeddings)) = dimension s) then
    match index s with
    | None => raise AttributeError
    | Some ix =>
        ix' <- lift (IndexFlatL2_add ix (np_float32 <$> embeddings)) ;;
        set_self {| dimension := dimension s; index := Some ix';
                    metadata := metadata s |} ;;
        s <- get_self ;;
        set_self {| dimension := dimension s; index := index s;
                    metadata := metadata s ++ [md] |} ;;
        _save e
    end
  else raise DimensionMismatch.

(** The loop of [get_similar_embeddings] over the labels. *)
Fixpoint collect (md : list dict) (labels : list Z) : outcome (list dict) :=
  match labels with
  | [] => Return []
  | idx :: rest =>
      if idx <? Z.of_nat (length md) then
        match list_getitem md idx with
        | Return r =>
            match collect md rest with
            | Return rs => Return (r :: rs)
            | Raise x => Raise x
            end
        | Raise x => Raise x
        end
      else collect md rest
  end.

Definition get_similar_embeddings (embedding : list float) (n : nat)
  : M (list dict) :=
  s <- get_self ;;
  match index s with
  | None => ret []
  | Some ix =>
      if decide (ntotal ix = 0%nat) then ret []
      else
        labels <- lift (IndexFlatL2_search ix (np_float32 <$> embedding)
                          (Nat.min n (ntotal ix))) ;;
        lift (collect (metadata s) labels)
  end.

Definition generate_embedding (e : env) (text : string) : M (list float) :=
  match provider e text with
  | Some v => ret v
  | None => raise ProviderError
  end.

Definition add_ddl (e : env) (ddl : string) : M string :=
  let id := uuid4 e in
  embedding <- generate_embedding e ddl ;;
  add_embeddings e embedding
    (<["id" := id]> (<["type" := "ddl"]> (<["content" := ddl]> ∅))) ;;
  ret id.

Definition add_documentation (e : env) (documentation : string) : M string :=
  let id := uuid4 e in
  embedding <- generate_embedding e documentation ;;
  add_embeddings e embedding
    (<["id" := id]>
       (<["type" := "documentation"]> (<["content" := documentation]> ∅))) ;;
  ret id.

Definition add_question_sql (e : env) (question sql : string) : M string :=
  let id := uuid4 e in
  embedding <- generate_embedding e question ;;
  add_embeddings e embedding
    (<["id" := id]>
       (<["type" := "question_sql"]>
          (<["question" := question]> (<["sql" := sql]> ∅)))) ;;
  ret id.

(** [[r['content'] for r in results if r.get('type') == ty]] *)
Fixpoint contents_of_type (ty : string) (results : list dict)
  : outcome (list string) :=
  match results with
  | [] => Return []
  | r :: rest =>
      if decide (r !! "type" = Some ty) then
        match dict_getitem r "content" with
        | Return c =>
            match contents_of_type ty rest with
            | Return cs => Return (c :: cs)
            | Raise x => Raise x
            end
        | Raise x => Raise x
        end
      else contents_of_type ty rest
  end.

(** [[{'question': r['question'], 'sql': r['sql']} for r in results
      if r.get('type') == 'question_sql']] *)
Fixpoint question_sql_pairs (results : list dict) : outcome (list dict) :=
  match results with
  | [] => Return []
  | r :: rest =>
      if decide (r !! "type" = Some "question_sql") then
        match dict_getitem r "question" with
        | Return q =>
            match dict_getitem r "sql" with
            | Return sq =>
                match question_sql_pairs rest with
                | Return ps =>
                    Return ((<["question" := q]> (<["sql" := sq]> ∅)) :: ps)
                | Raise x => Raise x
                end
            | Raise x => Raise x
            end
        | Raise x => Raise x
        end
      else question_sql_pairs rest
  end.

Definition get_related_ddl (e : env) (question : string) : M (list string) :=
  embedding <- generate_embedding e question ;;
  results <- get_similar_embeddings embedding 10 ;;
  lift (contents_of_type "ddl" results).

Definition get_related_documentation (e : env) (question : string)
  : M (list string) :=
  embedding <- generate_embedding e question ;;
  results <- get_similar_embeddings embedding 10 ;;
  lift (contents_of_type "documentation" results).

Definition get_similar_question_sql (e : env) (question : string)
  : M (list dict) :=
  embedding <- generate_embedding e question ;;
  results <- get_similar_embeddings embedding 10 ;;
  lift (question_sql_pairs results).

Definition get_training_data : M (list dict) :=
  s <- get_self ;;
  ret (metadata s).

(** The body of [remove_training_data] is a log line and [pass]. *)
Definition remove_training_data (id : string) : M unit := ret tt.

(** ** Sequences of public calls *)

Inductive call :=
| AddDdl (ddl : string)
| AddDocumentation (documentation : string)
| AddQuestionSql (question sql : string)
| GetRelatedDdl (question : string)
| GetRelatedDocumentation (question : string)
| GetSimilarQuestionSql (question : string)
| GetTrainingData
| RemoveTrainingData (id : string).

(** What a public call returns. *)
Inductive value :=
| VId (id : string)
| VTexts (l : list string)
| VRecords (l : list dict)
| VNone.

Definition perform (c : call) (e : env) : M value :=
  match c with
  | AddDdl ddl => id <- add_ddl e ddl ;; ret (VId id)
  | AddDocumentation doc => id <- add_documentation e doc ;; ret (VId id)
  | AddQuestionSql q sq => id <- add_question_sql e q sq ;; ret (VId id)
  | GetRelatedDdl q => l <- get_related_ddl e q ;; ret (VTexts l)
  | GetRelatedDocumentation q =>
      l <- get_related_documentation e q ;; ret (VTexts l)
  | GetSimilarQuestionSql q =>
      l <- get_similar_question_sql e q ;; ret (VRecords l)
  | GetTrainingData => l <- get_training_data ;; ret (VRecords l)
  | RemoveTrainingData id => remove_training_data id ;; ret VNone
  end.

(** The world after a sequence of calls, each with the environment's
    answers; a call that raises leaves the world it reached. *)
Fixpoint run (tr : list (call * env)) (w : world) : world :=
  match tr with
  | [] => w
  | (c, e) :: tr' => run tr' (perform c e w).2
  end.

(** The text a call sends to the embedding provider. *)
Definition embedded_text (c : call) : string :=
  match c with
  | AddDdl ddl => ddl
  | AddDocumentation doc => doc
  | AddQuestionSql q _ => q
  | GetRelatedDdl q => q
  | GetRelatedDocumentation q => q
  | GetSimilarQuestionSql q => q
  | GetTrainingData => ""
  | RemoveTrainingData _ => ""
  end.

(** The record an add call hands to [add_embeddings]. *)
Definition added_record (c : call) (e : env) : option dict :=
  match c with
  | AddDdl ddl =>
      Some (<["id" := uuid4 e]>
              (<["type" := "ddl"]> (<["content" := ddl]> ∅)))
  | AddDocumentation doc =>
      Some (<["id" := uuid4 e]>
              (<["type" := "documentation"]> (<["content" := doc]> ∅)))
  | AddQuestionSql q sq =>
      Some (<["id" := uuid4 e]>
              (<["type" := "question_sql"]>
                 (<["question" := q]> (<["sql" := sq]> ∅))))
  | _ => None
  end.

(** ** Predicates of the specification *)

(** [length(Index) == length(Ledger)], an uninitialized index counting as
    zero. *)
Definition aligned (s : FAISS_VectorStore) : Prop :=
  from_option ntotal 0%nat (index s) = length (metadata s).


(** The dimension a load of [dk] would give to a store whose index is [ix]
    is the dimension [s] has: the dimension file, when there is one, is the
    one [_init_index] wrote for [s]. *)
Definition dimension_on_disk (s : FAISS_VectorStore) (dk : disk) : Prop :=
  match index s with
  | None => True
  | Some ix =>
      match dimension_path dk with
      | Some txt => py_int txt = dimension s /\ is_Some (dimension s)
      | None => dimension s = Some (Z.of_nat (d ix))
      end
  end.

(** A record as the add operations build it: of kind ddl or documentation
    with a content, or of kind question_sql with a question and an sql. *)
Definition well_formed (r : dict) : Prop :=
  (r !! "type" = Some "ddl" \/ r !! "type" = Some "documentation" ->
   is_Some (r !! "content")) /\
  (r !! "type" = Some "question_sql" ->
   is_Some (r !! "question") /\ is_Some (r !! "sql")).

(** The store is initialized with dimension [D]. *)
Definition locked (D : Z) (s : FAISS_VectorStore) : Prop :=
  is_Some (index s) /\ dimension s = Some D.

(** [add_embeddings] gets past its checks on store [s] with embedding [v]:
    a store without index creates one (the dimension file is written), a
    store with an index has the dimension and the width of [v]. *)
Definition reaches_save (e : env) (v : list float) (s : FAISS_VectorStore)
  : Prop :=
  match index s with
  | None => io_dimension e = Written
  | Some ix =>
      dimension s = Some (Z.of_nat (length v)) /\ length v = d ix
  end.

(** The store [add_embeddings] has built in memory when it calls [_save]. *)
Definition store_after_append (s : FAISS_VectorStore) (v : list float)
    (md : dict) : FAISS_VectorStore :=
  match index s with
  | None =>
      {| dimension := Some (Z.of_nat (length v));
         index := Some {| d := length v; xb := [np_float32 <$> v] |};
         metadata := metadata s ++ [md] |}
  | Some ix =>
      {| dimension := dimension s;
         index := Some {| d := d ix; xb := xb ix ++ [np_float32 <$> v] |};
         metadata := metadata s ++ [md] |}
  end.

(** The (question, sql) pair [get_similar_question_sql] builds from a
    record. *)
Definition question_sql_of (r : dict) : dict :=
  <["question" := default "" (r !! "question")]>
    (<["sql" := default "" (r !! "sql")]> ∅).

(** The records of one kind, and the [content] payloads of records. *)
Definition of_type (ty : string) (rs : list dict) : list dict :=
  filter (fun r => r !! "type" = Some ty) rs.

Definition contents (rs : list dict) : list string :=
  omap (fun r => r !! "content") rs.

(** The records of the ledger at the labels a search returned, in rank
    order, labels past the end of the ledger left out. *)
Definition hits (md : list dict) (labels : list Z) : list dict :=
  omap (fun l => md !! Z.to_nat l)
       (filter (fun l => l < Z.of_nat (length md)) labels).

End Store.

Arguments IndexFlatL2 {_}.
Arguments FAISS_VectorStore {_}.
Arguments disk {_}.
Arguments world {_}.
Arguments env {_}.

(** ** A reference instance of the libraries

    Integer components, an exact conversion, and the brute-force search:
    positions ordered by squared Euclidean distance to the query, then by
    position, the first [k] kept.  It stands in for faiss in the closed
    examples below. *)

Definition sqdist (q x : list Z) : Z :=
  foldr Z.add 0 (zip_with (fun a b => (a - b) * (a - b)) x q).

Definition closer (a b : Z * Z) : Prop :=
  a.1 < b.1 \/ (a.1 = b.1 /\ a.2 <= b.2).

#[global] Instance closer_dec : RelDecision closer.
Proof. intros a b. unfold closer. apply _. Defined.

Definition brute_force (xb : list (list Z)) (q : list Z) (k : nat) : list Z :=
  take k
    (snd <$> merge_sort closer
       (zip (sqdist q <$> xb) (Z.of_nat <$> seq 0 (length xb)))).

Definition reference : Faiss :=
  {| float := Z; np_float32 := fun x => x; knn := brute_force |}.

(** The store on an empty data directory, and an environment in which the
    provider answers [v] and every write succeeds. *)
Definition no_files : @disk reference :=
  {| index_path := None; metadata_path := None; dimension_path := None |}.

Definition empty_store : @FAISS_VectorStore reference :=
  {| dimension := None; index := None; metadata := [] |}.

Definition fresh : @world reference := {| self := empty_store; files := no_files |}.

Definition answers (v : list Z) (id : string) : @env reference :=
  @Build_env reference (fun _ => Some v) id Written Written Written.

(** A store in which one ddl record lies farther from the origin than ten
    documentation records: eleven successful adds on the empty directory. *)
Definition ten_docs : list (call * @env reference) :=
  (fun i => (AddDocumentation "t stores widgets",
             answers [0] (py_str (Z.of_nat i)))) <$> seq 1 10.

Definition crowded : @world reference :=
  run ((AddDdl "CREATE TABLE t(id INT)", answers [5] "0") :: ten_docs) fresh.

(** The store after the three adds of the specification's scenario. *)
Definition trained : @world reference :=
  run [(AddDdl "CREATE TABLE t(id INT)", answers [1; 2] "id1");
       (AddDocumentation "t stores widgets", answers [3; 4] "id2");
       (AddQuestionSql "how many rows" "SELECT COUNT(*) FROM t",
        answers [5; 6] "id3")] fresh.

(** A store holding one ddl record, and environments in which a write
    fails. *)
Definition one_ddl : @world reference :=
  run [(AddDdl "CREATE TABLE t(id INT)", answers [1; 2] "id1")] fresh.

Definition ledger_write_fails (v : list Z) (id : string) : @env reference :=
  @Build_env reference (fun _ => Some v) id Written Written (Failed false).

(** A data directory holding the index file and the dimension file of
    [one_ddl], without its ledger file. *)
Definition ledger_missing : @disk reference :=
  {| index_path := index_path (files one_ddl);
     metadata_path := None;
     dimension_path := dimension_path (files one_ddl) |}.



(** ** The operations on small inputs *)

Example py_int_examples :
  py_int " 12_3 " = Some 123 /\ py_int "-7" = Some (-7) /\
  py_int "+5" = Some 5 /\ py_int "007" = Some 7 /\
  py_int "" = None /\ py_int "1__2" = None /\ py_int "5_" = None /\
  py_int "- 5" = None /\ py_int (py_str 1536) = Some 1536.
Proof. repeat split; reflexivity. Qed.

Example list_getitem_examples :
  list_getitem ["a"; "b"; "c"] 1 = Return "b" /\
  list_getitem ["a"; "b"; "c"] (-1) = Return "c" /\
  list_getitem ["a"; "b"; "c"] 3 = Raise IndexError /\
  list_getitem ["a"; "b"; "c"] (-4) = Raise IndexError /\
  list_getitem ([] : list string) (-1) = Raise IndexError.
Proof. repeat split; reflexivity. Qed.

Example brute_force_example :
  brute_force [[1; 2]; [0; 0]; [5; 5]; [0; 0]] [0; 0] 3 = [1; 3; 0].
Proof. reflexivity. Qed.

(** The scenario of the specification: after the three adds, the ddl
    retrieval returns the one ddl text and the question retrieval the one
    pair. *)
Example kind_filtering :
  (get_related_ddl (answers [1; 2] "") "which table holds widgets" trained).1
    = Return ["CREATE TABLE t(id INT)"] /\
  (get_related_documentation (answers [1; 2] "") "what is t" trained).1
    = Return ["t stores widgets"] /\
  (get_similar_question_sql (answers [5; 6] "") "how many rows in t"
     trained).1
    = Return [<["question" := "how many rows"]>
                (<["sql" := "SELECT COUNT(*) FROM t"]> ∅)].
Proof. repeat split; vm_compute; reflexivity. Qed.

Example add_then_mismatch :
  (perform (AddDdl "CREATE TABLE u(id INT)") (answers [1; 2; 3] "id4")
     trained)
    = (Raise DimensionMismatch, trained).
Proof. vm_compute. reflexivity. Qed.

(** ** Python built-ins: printing an integer and reading it back *)

Lemma lstrip_no_space (l : list ascii) :
  Forall (fun c => py_isspace c = false) l -> lstrip l = l.
Proof.
  destruct 1 as [|c l Hc _]; simpl; [done|]. by rewrite Hc.
Qed.

Lemma strip_no_space (s : string) :
  Forall (fun c => py_isspace c = false) (list_ascii_of_string s) ->
  py_strip s = s.
Proof.
  intros Hs. unfold py_strip.
  rewrite (lstrip_no_space _ Hs).
  rewrite lstrip_no_space by (by apply Forall_rev).
  by rewrite rev_involutive, string_of_list_ascii_of_string.
Qed.

Lemma digit_not_space (c : ascii) : py_isdigit c = true -> py_isspace c = false.
Proof.
  unfold py_isdigit, py_isspace. generalize (nat_of_ascii c). intros n.
  rewrite !andb_true_iff, orb_false_iff, !andb_false_iff,
    !Nat.leb_le, !Nat.leb_gt. lia.
Qed.

Lemma int_digits_all (l : list ascii) (prev : bool) :
  Forall (fun c => py_isdigit c = true) l ->
  l <> [] \/ prev = true ->
  int_digits prev l = Some l.
Proof.
  intros Hl. revert prev. induction Hl as [|c l Hc _ IH]; intros prev Hne.
  - destruct Hne as [ | -> ]; done.
  - simpl. rewrite Hc. rewrite IH by (by right). done.
Qed.

Lemma uint_digits (u : Decimal.uint) :
  Forall (fun c => py_isdigit c = true)
    (list_ascii_of_string (NilEmpty.string_of_uint u)).
Proof. induction u; simpl; constructor; done. Qed.

Lemma uint_string_nonempty (u : Decimal.uint) :
  u <> Decimal.Nil -> list_ascii_of_string (NilEmpty.string_of_uint u) <> [].
Proof. by destruct u. Qed.

Lemma py_int_digits (u : Decimal.uint) :
  u <> Decimal.Nil ->
  py_int (NilEmpty.string_of_uint u) = Some (Z.of_uint u).
Proof.
  intros Hu. unfold py_int.
  pose proof (uint_digits u) as Hd.
  rewrite strip_no_space
    by (eapply Forall_impl; [exact Hd | apply digit_not_space]).
  pose proof (uint_string_nonempty u Hu) as Hne.
  destruct (list_ascii_of_string (NilEmpty.string_of_uint u))
    as [|c l] eqn:El; [done|].
  assert (Hc : py_isdigit c = true) by (by inversion Hd).
  assert (Ascii.eqb c "-" = false) as ->
    by (apply Ascii.eqb_neq; intros ->; done).
  assert (Ascii.eqb c "+" = false) as ->
    by (apply Ascii.eqb_neq; intros ->; done).
  assert (Hp : NilEmpty.uint_of_string (string_of_list_ascii (c :: l)) = Some u)
    by (by rewrite <- El, string_of_list_ascii_of_string, NilEmpty.usu).
  rewrite int_digits_all by (auto; left; done).
  simpl in *. by rewrite Hp.
Qed.

Lemma py_int_str_nat (n : nat) :
  py_int (py_str (Z.of_nat n)) = Some (Z.of_nat n).
Proof.
  unfold py_str. destruct (Z.of_nat n) as [|p|p] eqn:E; [done| |lia].
  simpl. pose proof (DecimalPos.Unsigned.to_uint_nonnil p) as Hp.
  replace (NilZero.string_of_uint (Pos.to_uint p))
    with (NilEmpty.string_of_uint (Pos.to_uint p))
    by (by destruct (Pos.to_uint p)).
  rewrite py_int_digits by done.
  unfold Z.of_uint. by rewrite DecimalPos.Unsigned.of_to.
Qed.

(** ** Properties of the store *)

Section Properties.
Context `{Faiss}.

(** Unfolds the monadic plumbing of the operations. *)
Ltac unfold_ops :=
  unfold add_ddl, add_documentation, add_question_sql, get_related_ddl,
    get_related_documentation, get_similar_question_sql, get_training_data,
    remove_training_data, generate_embedding, add_embeddings,
    get_similar_embeddings, _save, _init_index, write_dimension, write_index,
    pickle_dump, write_file, IndexFlatL2_add, IndexFlatL2_search, bind, ret,
    raise, lift, get_self, set_self in *.

(** Case analysis on every test an unfolded operation makes. *)
Ltac split_ops :=
  repeat (simpl in *; first [case_decide | case_match]; simplify_eq);
  simpl in *.

(** *** Which calls change the world *)

Lemma get_similar_embeddings_world (v : list float) (n : nat) (w : world) :
  (get_similar_embeddings v n w).2 = w.
Proof. unfold_ops. split_ops; done. Qed.

Lemma perform_read (c : call) (e : env) (w : world) :
  added_record c e = None -> (perform c e w).2 = w.
Proof.
  destruct c; try done; intros _; unfold perform;
    unfold get_related_ddl, get_related_documentation,
      get_similar_question_sql, get_training_data, remove_training_data,
      generate_embedding, bind, ret, raise, lift, get_self;
    destruct (provider e _); try done;
    pose proof (get_similar_embeddings_world l 10 w) as Hw;
    destruct (get_similar_embeddings l 10 w) as [[rs|x] w']; simpl in Hw;
    subst; split_ops; done.
Qed.

(** An add call is the embedding request followed by [add_embeddings] on
    the record of the call. *)
Lemma perform_add (c : call) (e : env) (md : dict) (w : world) :
  added_record c e = Some md ->
  perform c e w =
    match provider e (embedded_text c) with
    | None => (Raise ProviderError, w)
    | Some v =>
        match add_embeddings e v md w with
        | (Return _, w') => (Return (VId (uuid4 e)), w')
        | (Raise x, w') => (Raise x, w')
        end
    end.
Proof.
  destruct c; try done; intros [= <-]; unfold perform;
    unfold add_ddl, add_documentation, add_question_sql, generate_embedding,
      bind, ret, raise;
    simpl; destruct (provider e _); try done;
    destruct (add_embeddings _ _ _ w) as [[[]|x] w']; done.
Qed.

(** A property of the world that [add_embeddings] preserves holds along
    every sequence of calls; the step may rely on the record being the one
    of an add call and on a condition [Q] on the environment's answers. *)
Lemma run_invariant_when (Q : env -> Prop) (P : world -> Prop) :
  (forall c e v md w,
     added_record c e = Some md -> Q e -> P w ->
     P (add_embeddings e v md w).2) ->
  forall tr w, Forall (fun ce => Q ce.2) tr -> P w -> P (run tr w).
Proof.
  intros Hadd tr. induction tr as [|[c e] tr IH]; intros w Hq Hw; [done|].
  inversion_clear Hq as [|? ? Hq1 Hq2]. simpl in *. apply IH; [done|].
  destruct (added_record c e) as [md|] eqn:E.
  - rewrite (perform_add _ _ _ _ E).
    destruct (provider e _) as [v|]; [|done].
    specialize (Hadd c e v md w E Hq1 Hw).
    destruct (add_embeddings e v md w) as [[[]|x] w']; done.
  - by rewrite perform_read.
Qed.

Lemma run_invariant (P : world -> Prop) :
  (forall e v md w, P w -> P (add_embeddings e v md w).2) ->
  forall tr w, P w -> P (run tr w).
Proof.
  intros Hadd tr w.
  apply (run_invariant_when (fun _ => True)); [by auto|].
  by apply Forall_true.
Qed.

(** *** Alignment of index and ledger *)




(** *** Dimension lock-in *)

Lemma add_embeddings_locked (D : Z) (e : env) (v : list float) (md : dict)
    (w : world) :
  locked D (self w) -> locked D (self (add_embeddings e v md w).2).
Proof.
  destruct w as [[dim ix mdl] dk]. unfold locked. simpl.
  intros [[ix0 ->] ->]. unfold_ops. split_ops; eauto.
Qed.

Lemma add_embeddings_success (e : env) (v : list float) (md : dict)
    (w w' : world) :
  add_embeddings e v md w = (Return tt, w') ->
  locked (Z.of_nat (length v)) (self w').
Proof.
  destruct w as [[dim ix mdl] dk]. unfold locked. unfold_ops.
  intros Hr. split_ops; eauto.
Qed.

Lemma add_embeddings_mismatch (D : Z) (e : env) (v : list float) (md : dict)
    (w : world) :
  locked D (self w) ->
  Z.of_nat (length v) <> D ->
  add_embeddings e v md w = (Raise DimensionMismatch, w).
Proof.
  destruct w as [[dim ix mdl] dk]. unfold locked. simpl.
  intros [[ix0 ->] ->] Hne. unfold_ops. split_ops; done.
Qed.

(** C4. A successful add leaves the store with the dimension [D] of its
    embedding, and after it, whatever calls come in between, every add whose
    embedding has another length raises the dimension mismatch and leaves the
    world (store and files) exactly as it was. *)
Theorem dimension_lock_in (c : call) (e : env) (md : dict) (w w1 : world)
    (r : value) :
  added_record c e = Some md ->
  perform c e w = (Return r, w1) ->
  exists v,
    provider e (embedded_text c) = Some v /\
    dimension (self w1) = Some (Z.of_nat (length v)) /\
    forall tr c' e' md' v',
      added_record c' e' = Some md' ->
      provider e' (embedded_text c') = Some v' ->
      length v' <> length v ->
      perform c' e' (run tr w1) = (Raise DimensionMismatch, run tr w1).
Proof.
  intros Hc Hp. rewrite (perform_add _ _ _ _ Hc) in Hp.
  destruct (provider e _) as [v|]; [|done]. exists v. split; [done|].
  destruct (add_embeddings e v md w) as [[[]|x] w2] eqn:Ea; [|done].
  injection Hp as _ <-.
  pose proof (add_embeddings_success _ _ _ _ _ Ea) as Hl.
  split; [apply Hl|].
  intros tr c' e' md' v' Hc' Hv' Hne.
  rewrite (perform_add _ _ _ _ Hc'), Hv'.
  rewrite (add_embeddings_mismatch (Z.of_nat (length v))); [done| |lia].
  apply (run_invariant (fun w => locked (Z.of_nat (length v)) (self w)));
    [|done].
  intros. by apply add_embeddings_locked.
Qed.

(** *** Failure of the persistence step *)

(** C3, as the code has it. When [add_embeddings] has passed its checks and
    appended to index and ledger, and writing the index file or the ledger
    file fails, the add raises the storage error and the store keeps the
    appended vector and record: nothing is rolled back. *)
Theorem storage_error_keeps_appends (c : call) (e : env) (md : dict)
    (v : list float) (w : world) :
  added_record c e = Some md ->
  provider e (embedded_text c) = Some v ->
  reaches_save e v (self w) ->
  io_index e <> Written \/ io_metadata e <> Written ->
  (perform c e w).1 = Raise StorageError /\
  self (perform c e w).2 = store_after_append (self w) v md.
Proof.
  intros Hc Hv Hr Hio. rewrite (perform_add _ _ _ _ Hc), Hv.
  destruct w as [[dim ix mdl] dk].
  unfold reaches_save, store_after_append in *. simpl in *.
  unfold_ops.
  destruct ix as [ix|]; simpl in *.
  - destruct Hr as [-> Hd]. rewrite decide_True by done.
    rewrite length_fmap. rewrite decide_True by done. simpl.
    destruct Hio as [Hio|Hio];
      destruct (io_index e) as [|[]]; destruct (io_metadata e) as [|[]];
      done.
  - rewrite Hr. simpl. rewrite decide_True by done.
    rewrite length_fmap. rewrite decide_True by done. simpl.
    destruct Hio as [Hio|Hio];
      destruct (io_index e) as [|[]]; destruct (io_metadata e) as [|[]];
      done.
Qed.

(** *** Removal *)

(** C2, as the code has it. [remove_training_data] returns normally, for
    every id, and leaves the world (store and files) exactly as it was; in
    particular the ledger still holds every record it held. *)
Theorem remove_training_data_noop (id : string) (e : env) (w : world) :
  perform (RemoveTrainingData id) e w = (Return VNone, w) /\
  (get_training_data (perform (RemoveTrainingData id) e w).2).1
    = (get_training_data w).1.
Proof. done. Qed.

(** *** Startup *)


(** *** Search on an empty store *)

(** C9. On a store whose index is uninitialized or holds no vector,
    [get_similar_embeddings] returns the empty list for every query and
    every [n], and each of the three retrieval calls returns the empty list
    for every question the provider embeds; none of them raises or changes
    the world. *)
Theorem empty_store_search (w : world) :
  from_option ntotal 0%nat (index (self w)) = 0%nat ->
  (forall v n, get_similar_embeddings v n w = (Return [], w)) /\
  (forall e q v,
     provider e q = Some v ->
     get_related_ddl e q w = (Return [], w) /\
     get_related_documentation e q w = (Return [], w) /\
     get_similar_question_sql e q w = (Return [], w)).
Proof.
  intros He.
  assert (Hs : forall v n, get_similar_embeddings v n w = (Return [], w)).
  { intros v n. unfold_ops. destruct (index (self w)) as [ix|]; [|done].
    simpl in He. by rewrite decide_True. }
  split; [done|]. intros e q v Hv.
  unfold get_related_ddl, get_related_documentation,
    get_similar_question_sql, generate_embedding, bind, ret, lift.
  by rewrite Hv, !Hs.
Qed.

(** *** Save and load *)

Lemma init_dimension_on_disk (cfg : option Z) (dk : disk)
    (s : FAISS_VectorStore) :
  __init__ cfg dk = Return s -> dimension_on_disk s dk.
Proof.
  unfold __init__, dimension_on_disk. intros Hs. split_ops; simpl; eauto.
Qed.

Lemma add_embeddings_dimension_on_disk (e : env) (v : list float) (md : dict)
    (w : world) :
  io_dimension e = Written ->
  dimension_on_disk (self w) (files w) ->
  dimension_on_disk (self (add_embeddings e v md w).2)
    (files (add_embeddings e v md w).2).
Proof.
  destruct w as [[dim ix mdl] dk]. unfold dimension_on_disk. unfold_ops.
  intros Hio Hd. rewrite Hio.
  split_ops; simpl; rewrite ?length_fmap in *; rewrite ?py_int_str_nat;
    try done; eauto; f_equal; lia.
Qed.


(** The files a successful add leaves are the store it leaves. *)
Lemma add_embeddings_saved (e : env) (v : list float) (md : dict)
    (w w' : world) :
  add_embeddings e v md w = (Return tt, w') ->
  exists ix,
    index (self w') = Some ix /\
    index_path (files w') = Some (Valid ix) /\
    metadata_path (files w') = Some (Valid (metadata (self w'))).
Proof.
  destruct w as [[dim ix mdl] dk]. unfold_ops.
  intros Hr. split_ops; eauto.
Qed.

(** The precondition of C8 is what the code establishes: along every
    sequence of calls in which no write of the dimension file fails, a
    constructor run after a successful add returns the store in memory. *)
Lemma reload_after_add (cfg cfg' : option Z) (dk : disk)
    (s : FAISS_VectorStore) (tr : list (call * env)) (c : call) (e : env)
    (md : dict) (r : value) (w' : world) :
  __init__ cfg dk = Return s ->
  Forall (fun ce => io_dimension ce.2 = Written) (tr ++ [(c, e)]) ->
  added_record c e = Some md ->
  perform c e (run tr {| self := s; files := dk |}) = (Return r, w') ->
  __init__ cfg' (files w') = Return (self w').
Proof.
  intros Hs Hio Hc Hp. apply Forall_app in Hio as [Htr He].
  inversion_clear He as [|? ? He1 _]. simpl in He1.
  set (w := run tr {| self := s; files := dk |}) in *.
  assert (Hw : dimension_on_disk (self w) (files w)).
  { apply (run_invariant_when (fun e => io_dimension e = Written)
             (fun w => dimension_on_disk (self w) (files w))); [|done|].
    - intros. by apply add_embeddings_dimension_on_disk.
    - simpl. by eapply init_dimension_on_disk. }
  rewrite (perform_add _ _ _ _ Hc) in Hp.
  destruct (provider e _) as [v|]; [|done].
  pose proof (add_embeddings_dimension_on_disk e v md w He1 Hw) as Hd.
  destruct (add_embeddings e v md w) as [[[]|x] w2] eqn:Ea; [|done].
  injection Hp as _ <-. simpl in Hd.
  destruct (add_embeddings_saved _ _ _ _ _ Ea) as (ix & Hix & Hfi & Hfm).
  unfold __init__, dimension_on_disk in *. rewrite Hfi, Hfm. rewrite Hix in Hd.
  destruct w2 as [[dim2 ix2 md2] dk2]. simpl in *. subst ix2.
  destruct (dimension_path dk2) as [txt|].
  - destruct Hd as [-> [n ->]]. done.
  - by rewrite Hd.
Qed.

(** *** The lookup of the matched positions *)

Lemma collect_hits (md : list dict) (labels : list Z) :
  Forall (fun l => 0 <= l) labels -> collect md labels = Return (hits md labels).
Proof.
  unfold hits. induction 1 as [|l labels Hl _ IH]; [done|].
  simpl. destruct (Z.ltb_spec l (Z.of_nat (length md))) as [Hlt|Hge].
  - rewrite filter_cons_True by done. simpl.
    unfold list_getitem. rewrite (proj2 (Z.ltb_ge l 0)) by done.
    rewrite (proj2 (Z.leb_le 0 l)) by done.
    rewrite (proj2 (Z.ltb_lt l _)) by done. simpl.
    destruct (lookup_lt_is_Some_2 md (Z.to_nat l)) as [r Hr]; [lia|].
    rewrite Hr, IH. done.
  - rewrite filter_cons_False by lia. done.
Qed.

Lemma hits_elem (md : list dict) (labels : list Z) (r : dict) :
  r ∈ hits md labels ->
  exists l, l ∈ labels /\ l < Z.of_nat (length md) /\
            md !! Z.to_nat l = Some r.
Proof.
  unfold hits. intros (l & Hl & Hr)%list_elem_of_omap.
  apply list_elem_of_filter in Hl as [Hlt Hl]. eauto.
Qed.

Lemma omap_length_le {A B} (f : A -> option B) (l : list A) :
  (length (omap f l) <= length l)%nat.
Proof.
  induction l as [|x l IH]; simpl; [done|].
  change (list_omap A B f l) with (omap f l).
  destruct (f x); simpl; lia.
Qed.

Lemma hits_length (md : list dict) (labels : list Z) :
  (length (hits md labels) <= length labels)%nat.
Proof.
  unfold hits. etrans; [apply omap_length_le|]. apply length_filter.
Qed.

(** The search on an initialized, non-empty index, for a query of the
    width of the index. *)
Lemma get_similar_embeddings_hits (w : world) (ix : IndexFlatL2)
    (v : list float) (n : nat) :
  knn_contract ->
  index (self w) = Some ix ->
  ntotal ix <> 0%nat ->
  length v = d ix ->
  get_similar_embeddings v n w
    = (Return (hits (metadata (self w))
                 (knn (xb ix) (np_float32 <$> v) (Nat.min n (ntotal ix)))),
       w).
Proof.
  intros Hk Hix Hn Hv. unfold_ops. rewrite Hix.
  rewrite decide_False by done. rewrite length_fmap.
  rewrite decide_True by done. simpl.
  destruct (Hk (xb ix) (np_float32 <$> v) (Nat.min n (ntotal ix)))
    as [_ Hl]; [unfold ntotal; lia|].
  rewrite collect_hits; [done|].
  eapply Forall_impl; [exact Hl|]. simpl. lia.
Qed.


(** *** Retrieval by kind *)

Lemma contents_of_type_wf (ty : string) (rs : list dict) :
  ty = "ddl" \/ ty = "documentation" ->
  Forall well_formed rs ->
  contents_of_type ty rs = Return (contents (of_type ty rs)).
Proof.
  intros Hty. unfold contents, of_type.
  induction 1 as [|r rs [Hr _] _ IH]; [done|].
  simpl. destruct (decide (r !! "type" = Some ty)) as [Ht|Ht].
  - rewrite filter_cons_True by done.
    destruct Hr as [c Hc]; [destruct Hty as [-> | ->]; auto|].
    unfold dict_getitem. rewrite Hc, IH. simpl. by rewrite Hc.
  - by rewrite filter_cons_False.
Qed.

Lemma question_sql_pairs_wf (rs : list dict) :
  Forall well_formed rs ->
  question_sql_pairs rs
    = Return (question_sql_of <$> of_type "question_sql" rs).
Proof.
  unfold of_type. induction 1 as [|r rs [_ Hr] _ IH]; [done|].
  simpl. destruct (decide (r !! "type" = Some "question_sql")) as [Ht|Ht].
  - rewrite filter_cons_True by done.
    destruct (Hr Ht) as [[q Hq] [sq Hsq]].
    unfold dict_getitem. rewrite Hq, Hsq, IH, fmap_cons.
    do 2 f_equal. unfold question_sql_of. by rewrite Hq, Hsq.
  - by rewrite filter_cons_False.
Qed.

Lemma hits_well_formed (md : list dict) (labels : list Z) :
  Forall well_formed md -> Forall well_formed (hits md labels).
Proof.
  rewrite !Forall_forall. intros Hmd r (l & _ & _ & Hr)%hits_elem.
  apply Hmd. by eapply list_elem_of_lookup_2.
Qed.

(** The three retrieval calls on a store with an index, in terms of the
    records [top] at the labels of the ten nearest stored vectors. *)
Lemma related_of_top (w : world) (e : env) (q : string) (v : list float)
    (ix : IndexFlatL2) :
  knn_contract ->
  provider e q = Some v ->
  index (self w) = Some ix ->
  (ntotal ix <> 0%nat -> length v = d ix) ->
  Forall well_formed (metadata (self w)) ->
  let top := hits (metadata (self w))
               (knn (xb ix) (np_float32 <$> v) (Nat.min 10 (ntotal ix))) in
  get_related_ddl e q w = (Return (contents (of_type "ddl" top)), w) /\
  get_related_documentation e q w
    = (Return (contents (of_type "documentation" top)), w) /\
  get_similar_question_sql e q w
    = (Return (question_sql_of <$> of_type "question_sql" top), w) /\
  (length top <= 10)%nat.
Proof.
  intros Hk Hv Hix Hw Hmd top.
  assert (Hs : get_similar_embeddings v 10 w = (Return top, w)).
  { destruct (decide (ntotal ix = 0%nat)) as [Hn|Hn].
    - unfold_ops. rewrite Hix. rewrite decide_True by done.
      subst top. rewrite Hn. simpl.
      destruct (Hk (xb ix) (np_float32 <$> v) 0%nat) as [Hl _]; [lia|].
      apply nil_length_inv in Hl. by rewrite Hl.
    - apply get_similar_embeddings_hits; auto. }
  assert (Htop : Forall well_formed top) by (by apply hits_well_formed).
  unfold get_related_ddl, get_related_documentation,
    get_similar_question_sql, generate_embedding, bind, ret, lift.
  rewrite Hv, !Hs.
  rewrite !contents_of_type_wf, question_sql_pairs_wf by auto.
  repeat split. subst top. etrans; [apply hits_length|].
  destruct (Hk (xb ix) (np_float32 <$> v) (Nat.min 10 (ntotal ix)))
    as [Hl _]; [unfold ntotal; lia|].
  rewrite Hl. lia.
Qed.

Lemma filter_omap_length_le (ty : string) (rs : list dict) :
  (length (contents (of_type ty rs)) <= length rs)%nat /\
  (length (question_sql_of <$> of_type ty rs) <= length rs)%nat.
Proof.
  unfold contents, of_type. split.
  - etrans; [apply omap_length_le|]. apply length_filter.
  - rewrite length_fmap. apply length_filter.
Qed.

(** The ledger of a store built by the add calls holds well-formed records
    only. *)
Lemma added_record_well_formed (c : call) (e : env) (md : dict) :
  added_record c e = Some md -> well_formed md.
Proof.
  destruct c; try done; intros [= <-]; unfold well_formed;
    split; intros Ht; simplify_map_eq; eauto; destruct Ht; simplify_map_eq.
Qed.

Lemma run_well_formed (tr : list (call * env)) (w : world) :
  Forall well_formed (metadata (self w)) ->
  Forall well_formed (metadata (self (run tr w))).
Proof.
  apply (run_invariant_when (fun _ => True)
           (fun w => Forall well_formed (metadata (self w))));
    [|by apply Forall_true].
  intros c e v md [[dim ix mdl] dk] Hc _ Hw.
  apply added_record_well_formed in Hc. unfold_ops.
  split_ops; rewrite ?Forall_app; auto.
Qed.

End Properties.

(** ** The reference instance meets the contract of the search *)

Lemma reference_knn_contract : @knn_contract reference.
Proof.
  intros xb q k Hk.
  change (@knn reference xb q k) with (brute_force xb q k).
  change (@float reference) with Z in *. unfold brute_force.
  set (ps := zip (sqdist q <$> xb) (Z.of_nat <$> seq 0 (length xb))).
  assert (Hps : (merge_sort closer ps).*2 ≡ₚ Z.of_nat <$> seq 0 (length xb)).
  { rewrite merge_sort_Permutation. subst ps.
    by rewrite snd_zip by (by rewrite !length_fmap, length_seq). }
  split.
  - rewrite length_take_le; [done|].
    by rewrite Hps, length_fmap, length_seq.
  - apply Forall_take. rewrite Hps. apply Forall_fmap, Forall_seq.
    intros j Hj. simpl. lia.
Qed.

(** ** Retrieval returns the requested kind among the ten nearest *)

(** C7. Each retrieval call embeds the question, takes the records [top] at
    the labels of the (at most) ten nearest stored vectors of the one shared
    index, whatever their kind, keeps those of its kind and returns their
    payloads in the order of the search; so no call returns more than ten
    results.  And fewer results than records of the kind may come back: on
    the store [crowded], whose one ddl record is farther from the query than
    its ten documentation records, [get_related_ddl] returns nothing. *)
Theorem related_top10 :
  (forall (F : Faiss) (w : world) (e : env) (q : string) (v : list float)
          (ix : IndexFlatL2),
     knn_contract ->
     provider e q = Some v ->
     index (self w) = Some ix ->
     (ntotal ix <> 0%nat -> length v = d ix) ->
     Forall well_formed (metadata (self w)) ->
     let top := hits (metadata (self w))
                  (knn (xb ix) (np_float32 <$> v) (Nat.min 10 (ntotal ix))) in
     let ddls := contents (of_type "ddl" top) in
     let docs := contents (of_type "documentation" top) in
     let pairs := question_sql_of <$> of_type "question_sql" top in
     get_related_ddl e q w = (Return ddls, w) /\
     get_related_documentation e q w = (Return docs, w) /\
     get_similar_question_sql e q w = (Return pairs, w) /\
     (length ddls <= 10)%nat /\ (length docs <= 10)%nat /\
     (length pairs <= 10)%nat) /\
  (get_related_ddl (answers [0] "") "how many widgets" crowded
     = (Return [], crowded) /\
   length (of_type "ddl" (metadata (self crowded))) = 1%nat).
Proof.
  split.
  - intros F w e q v ix Hk Hv Hix Hw Hmd top ddls docs pairs.
    destruct (related_of_top w e q v ix Hk Hv Hix Hw Hmd)
      as (H1 & H2 & H3 & Hlen).
    fold top in H1, H2, H3, Hlen.
    repeat split; try done.
    + etrans; [apply (filter_omap_length_le "ddl" top)|done].
    + etrans; [apply (filter_omap_length_le "documentation" top)|done].
    + etrans; [apply (filter_omap_length_le "question_sql" top)|done].
  - split; vm_compute; reflexivity.
Qed.

(** ** The properties at concrete inputs *)


(** C2: the claim fails. On the store holding the record [id1],
    [remove_training_data "id1"] returns normally and the ledger still holds
    the record. *)
Lemma remove_training_data_keeps_record :
  (perform (RemoveTrainingData "id1") (answers [] "") one_ddl).1
    = Return VNone /\
  exists r,
    r ∈ metadata (self (perform (RemoveTrainingData "id1") (answers [] "")
                          one_ddl).2) /\
    r !! "id" = Some "id1".
Proof.
  split; [reflexivity|].
  eexists. split; [apply list_elem_of_here | vm_compute; reflexivity].
Qed.

(** C3: the claim fails. The second add raises the storage error when the
    ledger file cannot be written; the store in memory then holds two
    records, and a constructor run on the files would return another
    store. *)
Lemma add_not_rolled_back :
  let r := perform (AddDocumentation "t stores widgets")
             (ledger_write_fails [3; 4] "id2") one_ddl in
  r.1 = Raise StorageError /\
  length (metadata (self one_ddl)) = 1%nat /\
  length (metadata (self r.2)) = 2%nat /\
  __init__ None (files r.2) <> Return (self r.2).
Proof.
  repeat split; try (vm_compute; reflexivity).
  vm_compute. intros Heq. discriminate Heq.
Qed.

Lemma storage_error_keeps_appends_witness :
  let e := ledger_write_fails [3; 4] "id2" in
  let c := AddDocumentation "t stores widgets" in
  reaches_save e [3; 4] (self one_ddl) /\
  (perform c e one_ddl).1 = Raise StorageError /\
  length (metadata (self (perform c e one_ddl).2)) = 2%nat.
Proof.
  intros e c.
  assert (Hr : reaches_save e [3; 4] (self one_ddl))
    by (vm_compute; split; reflexivity).
  split; [exact Hr|].
  destruct (storage_error_keeps_appends (H:=reference) c e
              (default ∅ (added_record c e)) [3; 4] one_ddl)
    as [H1 H2];
    [reflexivity | reflexivity | exact Hr | right; discriminate |].
  split; [exact H1|]. rewrite H2. vm_compute. reflexivity.
Defined.

Lemma dimension_lock_in_witness :
  let e := answers [1; 2] "id1" in
  let c := AddDdl "CREATE TABLE t(id INT)" in
  perform c e fresh = (Return (VId "id1"), one_ddl) /\
  exists v,
    provider e (embedded_text c) = Some v /\
    dimension (self one_ddl) = Some (Z.of_nat (length v)) /\
    forall tr c' e' md' v',
      added_record c' e' = Some md' ->
      provider e' (embedded_text c') = Some v' ->
      length v' <> length v ->
      perform c' e' (run tr one_ddl) = (Raise DimensionMismatch, run tr one_ddl).
Proof.
  intros e c.
  assert (Hp : perform c e fresh = (Return (VId "id1"), one_ddl))
    by (vm_compute; reflexivity).
  split; [exact Hp|].
  exact (dimension_lock_in (H:=reference) c e (default ∅ (added_record c e))
           fresh one_ddl (VId "id1") eq_refl Hp).
Defined.



Lemma related_top10_witness :
  Forall well_formed (metadata (self crowded)) /\
  get_related_ddl (answers [5] "") "which tables" crowded
    = (Return ["CREATE TABLE t(id INT)"], crowded) /\
  get_related_documentation (answers [5] "") "which tables" crowded
    = (Return (replicate 9 "t stores widgets"), crowded).
Proof.
  assert (Hwf : Forall well_formed (metadata (self crowded))).
  { apply (run_well_formed (H:=reference)). constructor. }
  split; [exact Hwf|].
  assert (Hix : index (self crowded)
                = Some (@Build_IndexFlatL2 reference 1%nat ([5] :: replicate 10 [0])))
    by (vm_compute; reflexivity).
  destruct (proj1 related_top10 reference crowded (answers [5] "") "which tables"
              [5] _ reference_knn_contract eq_refl Hix (fun _ => eq_refl) Hwf)
    as (H1 & H2 & _).
  split; [rewrite H1 | rewrite H2]; vm_compute; reflexivity.
Defined.


Lemma empty_store_search_witness :
  get_similar_embeddings (H:=reference) [1; 2] 5 fresh = (Return [], fresh) /\
  get_related_ddl (answers [1; 2] "") "which tables" fresh
    = (Return [], fresh).
Proof.
  destruct (empty_store_search (H:=reference) fresh eq_refl) as [H1 H2].
  split; [apply H1|].
  apply (H2 (answers [1; 2] "") "which tables" [1; 2] eq_refl).
Defined.


(** * Further properties of the store *)

Section Ledger.
Context `{Faiss}.

(** The stored vectors, none while the index is uninitialized. *)
Definition vectors (s : FAISS_VectorStore) : list (list float) :=
  from_option xb [] (index s).

(** By how many entries the index is ahead of the ledger. *)
Definition gap (s : FAISS_VectorStore) : Z :=
  Z.of_nat (length (vectors s)) - Z.of_nat (length (metadata s)).

Ltac unfold_ops :=
  unfold add_ddl, add_documentation, add_question_sql, get_related_ddl,
    get_related_documentation, get_similar_question_sql, get_training_data,
    remove_training_data, generate_embedding, add_embeddings,
    get_similar_embeddings, _save, _init_index, write_dimension, write_index,
    pickle_dump, write_file, IndexFlatL2_add, IndexFlatL2_search, bind, ret,
    raise, lift, get_self, set_self in *.

Ltac split_ops :=
  repeat (simpl in *; first [case_decide | case_match]; simplify_eq);
  simpl in *.

(** X1. The retrieval calls, [get_training_data] and
    [remove_training_data] never change the store or the files, whether
    they return or raise. *)
Theorem reads_never_write (e : env) (w : world) (q id : string) :
  (get_related_ddl e q w).2 = w /\
  (get_related_documentation e q w).2 = w /\
  (get_similar_question_sql e q w).2 = w /\
  (get_training_data w).2 = w /\
  (remove_training_data id w).2 = w /\
  (forall v n, (get_similar_embeddings v n w).2 = w).
Proof.
  pose proof (perform_read (GetRelatedDdl q) e w eq_refl) as H1.
  pose proof (perform_read (GetRelatedDocumentation q) e w eq_refl) as H2.
  pose proof (perform_read (GetSimilarQuestionSql q) e w eq_refl) as H3.
  unfold perform, bind, ret in H1, H2, H3.
  repeat split; try done.
  - by destruct (get_related_ddl e q w) as [[]].
  - by destruct (get_related_documentation e q w) as [[]].
  - by destruct (get_similar_question_sql e q w) as [[]].
  - intros. apply get_similar_embeddings_world.
Qed.

(** One add either leaves vectors and ledger as they were, or appends the
    converted embedding and the record, both at once. *)
Lemma add_embeddings_pair (e : env) (v : list float) (md : dict) (w : world) :
  let w' := (add_embeddings e v md w).2 in
  (vectors (self w') = vectors (self w) /\
   metadata (self w') = metadata (self w)) \/
  (vectors (self w') = (vectors (self w) ++ [np_float32 <$> v])%list /\
   metadata (self w') = (metadata (self w) ++ [md])%list).
Proof.
  destruct w as [[dim ix mdl] dk]. unfold vectors. unfold_ops.
  split_ops; auto.
Qed.

(** X2. An add call appends the vector and the record together or not at
    all: after it, whatever it returned or raised, vectors and ledger are
    either both as before, or both one longer, ending with the converted
    embedding the provider returned and the record of the call. *)
Theorem add_appends_pair (c : call) (e : env) (md : dict) (w : world) :
  added_record c e = Some md ->
  let w' := (perform c e w).2 in
  (vectors (self w') = vectors (self w) /\
   metadata (self w') = metadata (self w)) \/
  (exists v,
     provider e (embedded_text c) = Some v /\
     vectors (self w') = (vectors (self w) ++ [np_float32 <$> v])%list /\
     metadata (self w') = (metadata (self w) ++ [md])%list).
Proof.
  intros Hc. simpl. rewrite (perform_add _ _ _ _ Hc).
  destruct (provider e (embedded_text c)) as [v|]; [|by left].
  pose proof (add_embeddings_pair e v md w) as Hp. simpl in Hp.
  destruct (add_embeddings e v md w) as [[[]|x] w']; simpl in *;
    (destruct Hp as [Hp|Hp]; [by left | right; eauto]).
Qed.

(** X3. The ledger and the vectors only grow at the end: along every
    sequence of calls the ledger the store started with stays a prefix of
    its ledger, and likewise the vectors. *)
Theorem ledger_append_only (tr : list (call * env)) (w : world) :
  metadata (self w) `prefix_of` metadata (self (run tr w)) /\
  vectors (self w) `prefix_of` vectors (self (run tr w)).
Proof.
  apply (run_invariant
           (fun w' => metadata (self w) `prefix_of` metadata (self w') /\
                      vectors (self w) `prefix_of` vectors (self w')));
    [|done].
  intros e v md w' [Hm Hv].
  destruct (add_embeddings_pair e v md w') as [[-> ->]|[-> ->]]; [done|].
  split; by apply prefix_app_r.
Qed.

(** X4. No call changes by how many entries the index is ahead of the
    ledger: a store that starts misaligned stays misaligned by the same
    amount. *)
Theorem gap_is_preserved (tr : list (call * env)) (w : world) :
  gap (self (run tr w)) = gap (self w).
Proof.
  apply (run_invariant (fun w' => gap (self w') = gap (self w))); [|done].
  intros e v md w' Hg. unfold gap in *.
  destruct (add_embeddings_pair e v md w') as [[-> ->]|[-> ->]]; [done|].
  rewrite !length_app. simpl. lia.
Qed.

(** What an add that returns, and an add whose save fails, leave in
    memory. *)
Lemma add_embeddings_returns (e : env) (v : list float) (md : dict)
    (w w' : world) :
  add_embeddings e v md w = (Return tt, w') ->
  metadata (self w') = (metadata (self w) ++ [md])%list /\
  vectors (self w') = (vectors (self w) ++ [np_float32 <$> v])%list.
Proof.
  destruct w as [[dim ix mdl] dk]. unfold vectors. unfold_ops.
  intros Hr. split_ops; simplify_eq; done.
Qed.

Lemma add_embeddings_save_fails (e : env) (v : list float) (md : dict)
    (w : world) :
  reaches_save e v (self w) ->
  io_index e <> Written \/ io_metadata e <> Written ->
  (add_embeddings e v md w).1 = Raise StorageError /\
  metadata (self (add_embeddings e v md w).2)
    = (metadata (self w) ++ [md])%list.
Proof.
  destruct w as [[dim ix mdl] dk]. unfold reaches_save. simpl.
  intros Hr Hio. unfold_ops. destruct ix as [ix|]; simpl in *.
  - destruct Hr as [-> Hd]. rewrite decide_True by done.
    rewrite length_fmap. rewrite decide_True by done. simpl.
    destruct Hio as [Hio|Hio];
      destruct (io_index e) as [|[]]; destruct (io_metadata e) as [|[]];
      done.
  - rewrite Hr. simpl. rewrite decide_True by done.
    rewrite length_fmap. rewrite decide_True by done. simpl.
    destruct Hio as [Hio|Hio];
      destruct (io_index e) as [|[]]; destruct (io_metadata e) as [|[]];
      done.
Qed.

(** X5. A successful add returns the identifier drawn for it, and
    [get_training_data] then lists the former ledger followed by the record
    of the call, which carries that identifier; on an aligned store the
    record and the converted embedding sit at the same position, the former
    length of the ledger. *)
Theorem successful_add_is_listed (c : call) (e : env) (md : dict)
    (w w' : world) (r : value) :
  added_record c e = Some md ->
  perform c e w = (Return r, w') ->
  r = VId (uuid4 e) /\
  md !! "id" = Some (uuid4 e) /\
  get_training_data w' = (Return (metadata (self w) ++ [md])%list, w') /\
  (aligned (self w) ->
   exists v,
     provider e (embedded_text c) = Some v /\
     metadata (self w') !! length (metadata (self w)) = Some md /\
     vectors (self w') !! length (metadata (self w))
       = Some (np_float32 <$> v)).
Proof.
  intros Hc Hp.
  assert (Hid : md !! "id" = Some (uuid4 e)).
  { destruct c; try done; injection Hc as <-; by simplify_map_eq. }
  rewrite (perform_add _ _ _ _ Hc) in Hp.
  destruct (provider e (embedded_text c)) as [v|]; [|done].
  destruct (add_embeddings e v md w) as [[[]|x] w2] eqn:Ea; [|done].
  injection Hp as <- <-.
  destruct (add_embeddings_returns _ _ _ _ _ Ea) as [Hm Hv]. repeat split; [done| |].
  - unfold get_training_data, bind, get_self, ret. simpl. by rewrite Hm.
  - intros Ha. exists v. split; [done|]. rewrite Hm, Hv.
    assert (Hlen : length (vectors (self w)) = length (metadata (self w))).
    { unfold aligned, vectors, ntotal in *.
      by destruct (index (self w)). }
    split.
    + rewrite lookup_app_r by lia. by rewrite Nat.sub_diag.
    + rewrite <- Hlen. rewrite lookup_app_r by lia. by rewrite Nat.sub_diag.
Qed.

(** X6. Durability of a successful add. Along a sequence of calls in
    which no write of the dimension file fails, when an add returns, the
    index file and the ledger file hold the index and the ledger of the
    store in memory, and a constructor run on the files returns that very
    store, whatever dimension is configured. *)
Theorem successful_add_is_durable (cfg cfg' : option Z) (dk : disk)
    (s : FAISS_VectorStore) (tr : list (call * env)) (c : call) (e : env)
    (md : dict) (r : value) (w' : world) :
  __init__ cfg dk = Return s ->
  Forall (fun ce => io_dimension ce.2 = Written) (tr ++ [(c, e)]) ->
  added_record c e = Some md ->
  perform c e (run tr {| self := s; files := dk |}) = (Return r, w') ->
  index_path (files w') = Valid <$> index (self w') /\
  metadata_path (files w') = Some (Valid (metadata (self w'))) /\
  __init__ cfg' (files w') = Return (self w').
Proof.
  intros Hs Hio Hc Hp.
  pose proof (reload_after_add cfg cfg' dk s tr c e md r w' Hs Hio Hc Hp)
    as Hr.
  rewrite (perform_add _ _ _ _ Hc) in Hp.
  destruct (provider e (embedded_text c)) as [v|]; [|done].
  destruct (add_embeddings e v md (run tr {| self := s; files := dk |}))
    as [[[]|x] w2] eqn:Ea; [|done].
  injection Hp as _ <-.
  destruct (add_embeddings_saved _ _ _ _ _ Ea) as (ix & Hix & Hfi & Hfm).
  by rewrite Hix, Hfi, Hfm.
Qed.

(** X7. The dimension is fixed by the first add that gets an embedding,
    also when that add fails. On a store without index, an add whose
    embedding request is answered leaves the store initialized with the
    length of that embedding as dimension, whatever the writes answer and
    whether it returns or raises; every later add of another length then
    raises the dimension mismatch and changes nothing. *)
Theorem first_add_attempt_locks_dimension (c : call) (e : env) (md : dict)
    (v : list float) (w : world) :
  added_record c e = Some md ->
  provider e (embedded_text c) = Some v ->
  index (self w) = None ->
  let w1 := (perform c e w).2 in
  locked (Z.of_nat (length v)) (self w1) /\
  forall tr c' e' md' v',
    added_record c' e' = Some md' ->
    provider e' (embedded_text c') = Some v' ->
    length v' <> length v ->
    perform c' e' (run tr w1) = (Raise DimensionMismatch, run tr w1).
Proof.
  intros Hc Hv Hix w1.
  assert (Hl : locked (Z.of_nat (length v)) (self w1)).
  { subst w1. rewrite (perform_add _ _ _ _ Hc), Hv.
    assert (locked (Z.of_nat (length v)) (self (add_embeddings e v md w).2)).
    { destruct w as [[dim ix mdl] dk]. simpl in Hix. subst ix.
      unfold locked. unfold_ops. split_ops; eauto. }
    by destruct (add_embeddings e v md w) as [[[]|x] w2]. }
  split; [done|].
  intros tr c' e' md' v' Hc' Hv' Hne.
  rewrite (perform_add _ _ _ _ Hc'), Hv'.
  rewrite (add_embeddings_mismatch (Z.of_nat (length v))); [done| |lia].
  apply (run_invariant (fun w => locked (Z.of_nat (length v)) (self w)));
    [|done].
  intros. by apply add_embeddings_locked.
Qed.

(** X8. The first add after an empty start decides everything. When the
    index file or the ledger file is missing, the constructor's store
    followed by an add whose embedding request and writes succeed gives a
    store and three files that hold exactly that one vector and record and
    the length of the embedding, whatever dimension was configured and
    whatever the other files held. *)
Theorem first_add_on_empty_start (cfg : option Z) (dk : disk) (c : call)
    (e : env) (md : dict) (v : list float) :
  index_path dk = None \/ metadata_path dk = None ->
  added_record c e = Some md ->
  provider e (embedded_text c) = Some v ->
  io_dimension e = Written ->
  io_index e = Written ->
  io_metadata e = Written ->
  exists s0,
    __init__ cfg dk = Return s0 /\
    let ix1 := {| d := length v; xb := [np_float32 <$> v] |} in
    perform c e {| self := s0; files := dk |}
      = (Return (VId (uuid4 e)),
         {| self := {| dimension := Some (Z.of_nat (length v));
                       index := Some ix1; metadata := [md] |};
            files := {| index_path := Some (Valid ix1);
                        metadata_path := Some (Valid [md]);
                        dimension_path
                          := Some (py_str (Z.of_nat (length v))) |} |}).
Proof.
  intros Hdk Hc Hv Hd Hi Hm. eexists. split.
  - unfold __init__. destruct Hdk as [-> | ->]; [done|].
    by destruct (index_path dk).
  - simpl. rewrite (perform_add _ _ _ _ Hc), Hv. unfold_ops. simpl.
    rewrite Hd. simpl. rewrite decide_True by done.
    rewrite length_fmap. rewrite decide_True by done. simpl.
    rewrite Hi. simpl. rewrite Hm. done.
Qed.

(** X9. An add or a retrieval whose embedding request fails raises the
    provider's error and changes neither the store nor the files. *)
Theorem provider_failure_changes_nothing (c : call) (e : env) (w : world) :
  c <> GetTrainingData ->
  (forall id, c <> RemoveTrainingData id) ->
  provider e (embedded_text c) = None ->
  perform c e w = (Raise ProviderError, w).
Proof.
  intros H1 H2 Hp. destruct c; try done; simpl in *;
    unfold_ops; rewrite ?Hp; try done.
  by destruct (H2 id).
Qed.

(** Labels that are positions of the ledger are all looked up. *)
Lemma hits_all (md : list dict) (labels : list Z) :
  Forall (fun l => 0 <= l < Z.of_nat (length md)) labels ->
  length (hits md labels) = length labels.
Proof.
  unfold hits. induction 1 as [|l labels Hl _ IH]; [done|].
  rewrite filter_cons_True by lia.
  destruct (lookup_lt_is_Some_2 md (Z.to_nat l)) as [r Hr]; [lia|].
  cbn [omap list_omap]. rewrite Hr. simpl. f_equal. exact IH.
Qed.

(** X10. On a store whose index and ledger have the same length, a search
    for [n >= 1] neighbours with a query of the width of the index returns
    exactly [min(n, ntotal)] records. *)
Theorem similar_embeddings_count (w : world) (ix : IndexFlatL2)
    (v : list float) (n : nat) :
  knn_contract ->
  aligned (self w) ->
  index (self w) = Some ix ->
  length v = d ix ->
  (1 <= n)%nat ->
  exists rs,
    get_similar_embeddings v n w = (Return rs, w) /\
    length rs = Nat.min n (ntotal ix).
Proof.
  intros Hk Ha Hix Hv Hn.
  destruct (decide (ntotal ix = 0%nat)) as [H0|H0].
  - exists []. unfold_ops. rewrite Hix. rewrite decide_True by done.
    split; [done|]. rewrite H0. simpl. lia.
  - eexists. split; [by apply get_similar_embeddings_hits|].
    destruct (Hk (xb ix) (np_float32 <$> v) (Nat.min n (ntotal ix)))
      as [Hl Hf]; [unfold ntotal; lia|].
    rewrite hits_all; [done|].
    unfold aligned in Ha. rewrite Hix in Ha. simpl in Ha.
    by rewrite <- Ha.
Qed.

(** A record of the wanted kind without [content] makes the comprehension
    raise. *)
Lemma contents_of_type_missing (ty : string) (rs : list dict) (r : dict) :
  r ∈ rs ->
  r !! "type" = Some ty ->
  r !! "content" = None ->
  contents_of_type ty rs = Raise KeyError.
Proof.
  intros Hin Ht Hc. induction rs as [|r' rs IH]; [by apply elem_of_nil in Hin|].
  simpl. apply elem_of_cons in Hin as [<- | Hin].
  - rewrite decide_True by done. unfold dict_getitem. by rewrite Hc.
  - specialize (IH Hin).
    destruct (decide (r' !! "type" = Some ty)); [|exact IH].
    unfold dict_getitem. destruct (r' !! "content"); [|done].
    by rewrite IH.
Qed.

(** X11. One malformed record spoils a retrieval. When one of the records
    at the labels of the ten nearest vectors is of kind ddl and has no
    [content] entry, [get_related_ddl] raises [KeyError] instead of
    returning the other ddl texts; the store and the files are as before. *)
Theorem related_ddl_missing_content (w : world) (e : env) (q : string)
    (v : list float) (ix : IndexFlatL2) (r : dict) :
  knn_contract ->
  provider e q = Some v ->
  index (self w) = Some ix ->
  ntotal ix <> 0%nat ->
  length v = d ix ->
  r ∈ hits (metadata (self w))
        (knn (xb ix) (np_float32 <$> v) (Nat.min 10 (ntotal ix))) ->
  r !! "type" = Some "ddl" ->
  r !! "content" = None ->
  get_related_ddl e q w = (Raise KeyError, w).
Proof.
  intros Hk Hp Hix Hn Hv Hr Ht Hc.
  unfold get_related_ddl, generate_embedding, bind, ret, lift.
  rewrite Hp, (get_similar_embeddings_hits w ix) by done.
  by rewrite (contents_of_type_missing "ddl" _ r).
Qed.

(** X12. A store whose dimension is not the width of its index accepts no
    add: every add raises, and no sequence of calls changes the store or
    the files. *)
Theorem width_disagreement_freezes_store (w : world) (ix : IndexFlatL2) :
  index (self w) = Some ix ->
  dimension (self w) <> Some (Z.of_nat (d ix)) ->
  (forall c e md, added_record c e = Some md ->
     exists x, perform c e w = (Raise x, w)) /\
  (forall tr, run tr w = w).
Proof.
  intros Hix Hd.
  assert (Hadd : forall e v md, exists x,
            add_embeddings e v md w = (Raise x, w)).
  { intros e v md. destruct w as [[dim ixo mdl] dk]. simpl in *. subst ixo.
    unfold_ops. simpl.
    destruct (decide (Some (Z.of_nat (length v)) = dim)) as [<-|Hne];
      [|by eexists].
    rewrite length_fmap. rewrite decide_False; [by eexists|].
    intros Hv. apply Hd. by rewrite Hv. }
  assert (Hstep : forall c e, (perform c e w).2 = w).
  { intros c e. destruct (added_record c e) as [md|] eqn:E.
    - rewrite (perform_add _ _ _ _ E).
      destruct (provider e (embedded_text c)) as [v|]; [|done].
      destruct (Hadd e v md) as [x ->]. done.
    - by apply perform_read. }
  split.
  - intros c e md Hc. rewrite (perform_add _ _ _ _ Hc).
    destruct (provider e (embedded_text c)) as [v|]; [|by eexists].
    destruct (Hadd e v md) as [x ->]. by eexists.
  - intros tr. induction tr as [|[c e] tr IH]; [done|].
    simpl. by rewrite Hstep.
Qed.

(** An add that passes its checks and whose writes all succeed returns
    and leaves the store [store_after_append] describes. *)
Lemma add_embeddings_succeeds (e : env) (v : list float) (md : dict)
    (w : world) :
  reaches_save e v (self w) ->
  io_index e = Written ->
  io_metadata e = Written ->
  (add_embeddings e v md w).1 = Return tt /\
  self (add_embeddings e v md w).2 = store_after_append (self w) v md.
Proof.
  destruct w as [[dim ix mdl] dk]. unfold reaches_save, store_after_append.
  simpl. intros Hr Hi Hm. unfold_ops. destruct ix as [ix|]; simpl in *.
  - destruct Hr as [-> Hd]. rewrite decide_True by done.
    rewrite length_fmap. rewrite decide_True by done. simpl.
    by rewrite Hi, Hm.
  - rewrite Hr. simpl. rewrite decide_True by done.
    rewrite length_fmap. rewrite decide_True by done. simpl.
    by rewrite Hi, Hm.
Qed.

Lemma store_after_append_reaches (e e' : env) (v : list float) (md : dict)
    (s : FAISS_VectorStore) :
  reaches_save e v s -> reaches_save e' v (store_after_append s v md).
Proof.
  unfold reaches_save, store_after_append.
  destruct (index s) as [ix|]; simpl; [tauto|done].
Qed.

(** X13. Repeating an add that failed to save stores the record twice.
    When an add appended in memory and then raised because the index or the
    ledger file could not be written, and the caller repeats it with the
    same embedding and all writes succeed, the second add returns and the
    ledger ends with both records, the failed one first. *)
Theorem retry_after_storage_error_duplicates (c : call) (e1 e2 : env)
    (md1 md2 : dict) (v : list float) (w : world) :
  added_record c e1 = Some md1 ->
  added_record c e2 = Some md2 ->
  provider e1 (embedded_text c) = Some v ->
  provider e2 (embedded_text c) = Some v ->
  reaches_save e1 v (self w) ->
  io_index e1 <> Written \/ io_metadata e1 <> Written ->
  io_index e2 = Written ->
  io_metadata e2 = Written ->
  let w1 := (perform c e1 w).2 in
  (perform c e1 w).1 = Raise StorageError /\
  (perform c e2 w1).1 = Return (VId (uuid4 e2)) /\
  metadata (self (perform c e2 w1).2)
    = (metadata (self w) ++ [md1; md2])%list.
Proof.
  intros Hc1 Hc2 Hv1 Hv2 Hr Hio Hi Hm. simpl.
  rewrite (perform_add _ _ _ _ Hc1), Hv1.
  destruct (add_embeddings_save_fails e1 v md1 w Hr Hio) as [Hf Hmd].
  assert (Hs : self (add_embeddings e1 v md1 w).2
               = store_after_append (self w) v md1).
  { clear Hf Hmd. destruct w as [[dim ix mdl] dk].
    unfold reaches_save, store_after_append in *. simpl in *. unfold_ops.
    destruct ix as [ix|]; simpl in *.
    - destruct Hr as [-> Hd]. rewrite decide_True by done.
      rewrite length_fmap. rewrite decide_True by done. simpl.
      destruct (io_index e1) as [|[]]; destruct (io_metadata e1) as [|[]];
        try done; by destruct Hio.
    - rewrite Hr. simpl. rewrite decide_True by done.
      rewrite length_fmap. rewrite decide_True by done. simpl.
      destruct (io_index e1) as [|[]]; destruct (io_metadata e1) as [|[]];
        try done; by destruct Hio. }
  destruct (add_embeddings e1 v md1 w) as [[[]|x] w1] eqn:Ea; simpl in *;
    [done|]. injection Hf as ->. split; [done|].
  rewrite (perform_add _ _ _ _ Hc2), Hv2.
  assert (Hr2 : reaches_save e2 v (self w1))
    by (rewrite Hs; by eapply store_after_append_reaches).
  destruct (add_embeddings_succeeds e2 v md2 w1 Hr2 Hi Hm) as [H1 H2].
  destruct (add_embeddings e2 v md2 w1) as [[[]|x] w2] eqn:Eb; simpl in *;
    [|done].
  split; [done|]. rewrite H2. unfold store_after_append.
  destruct (index (self w1)); simpl; by rewrite Hmd, <- app_assoc.
Qed.

(** X14. A failed ledger write followed by a restart gives a misaligned
    store. For a store whose files hold its index and its ledger, when an
    add writes the index file and then fails on the ledger file, leaving it
    as it was, a constructor run on the files returns the former ledger with
    an index that holds one vector more: the record of the failed add is
    lost and its vector is kept. *)
Theorem ledger_write_failure_then_restart (c : call) (e : env) (md : dict)
    (v : list float) (w : world) (ix : IndexFlatL2) (cfg : option Z) :
  added_record c e = Some md ->
  provider e (embedded_text c) = Some v ->
  index (self w) = Some ix ->
  metadata_path (files w) = Some (Valid (metadata (self w))) ->
  dimension_on_disk (self w) (files w) ->
  reaches_save e v (self w) ->
  io_index e = Written ->
  io_metadata e = Failed false ->
  let w' := (perform c e w).2 in
  (perform c e w).1 = Raise StorageError /\
  __init__ cfg (files w')
    = Return {| dimension := dimension (self w);
                index := Some {| d := d ix;
                                 xb := xb ix ++ [np_float32 <$> v] |};
                metadata := metadata (self w) |}.
Proof.
  intros Hc Hv Hix Hmp Hd Hr Hi Hm. simpl.
  rewrite (perform_add _ _ _ _ Hc), Hv.
  destruct w as [[dim ixo mdl] dk].
  unfold reaches_save, dimension_on_disk, __init__ in *. simpl in *.
  subst ixo. destruct Hr as [-> Hw]. unfold_ops. simpl.
  rewrite decide_True by done. rewrite length_fmap.
  rewrite decide_True by done. simpl. rewrite Hi. simpl. rewrite Hm. simpl.
  split; [done|]. rewrite Hmp.
  destruct (dimension_path dk) as [txt|].
  - destruct Hd as [-> _]. done.
  - by rewrite Hd.
Qed.

End Ledger.

(** * The request handlers of [backend/app.py]

    The two training routes and the listing route, on the module-level
    instance [vn], here the world of the store.  [request.get_json()] and
    [vn.train] belong to flask and to the vanna package: the first is given
    by its result, the second is a parameter of the handlers. *)

(** What [request.get_json()] returns: [None], a bool, an int, a float (of
    which the handlers only test whether it is zero), a string, a list or a
    dict. *)
#[warnings="-register-all"]
Inductive pyval :=
| PNone
| PBool (b : bool)
| PInt (z : Z)
| PFloat (nonzero : bool)
| PStr (s : string)
| PList (l : list pyval)
| PDict (m : gmap string pyval).

(** [bool(v)] *)
Definition truthy (v : pyval) : bool :=
  match v with
  | PNone => false
  | PBool b => b
  | PInt z => negb (z =? 0)
  | PFloat nonzero => nonzero
  | PStr s => negb (String.eqb s "")
  | PList l => negb (Nat.eqb (length l) 0)
  | PDict m => negb (Nat.eqb (size m) 0)
  end.

(** [len(v)] *)
Definition py_len (v : pyval) : outcome nat :=
  match v with
  | PStr s => Return (String.length s)
  | PList l => Return (length l)
  | PDict m => Return (size m)
  | _ => Raise TypeError
  end.

(** [data.get(key)] on what the request body parsed to. *)
Definition data_get (data : pyval) (key : string) : outcome pyval :=
  match data with
  | PDict m => Return (default PNone (m !! key))
  | _ => Raise AttributeError
  end.

(** [v[:100]] *)
Definition slice100 (v : pyval) : outcome pyval :=
  match v with
  | PStr s => Return (PStr (String.substring 0 100 s))
  | PList l => Return (PList (take 100 l))
  | _ => Raise TypeError
  end.

(** The result of [request.get_json()]: the parsed body, or the HTTP
    exception flask raises for a body that is not JSON. *)
Inductive get_json :=
| Parsed (data : pyval)
| NotJson.

(** What a handler caught. *)
Inductive caught :=
| Exn (x : exn)
| HTTPException.

(** The responses of the three routes. *)
Inductive response :=
| Trained (message : string)
| TrainingData (data : list dict)
| Required (error : string)
| Failed500 (x : caught).

Definition status (r : response) : nat :=
  match r with
  | Trained _ => 200
  | TrainingData _ => 200
  | Required _ => 400
  | Failed500 _ => 500
  end.

Section App.
Context `{Faiss}.

(** [vn.train(question=.., sql=.., ddl=..)], [None] for a keyword that is
    not passed. *)
Variable train : option pyval -> option pyval -> option pyval -> env -> M unit.

(** What the vanna package documents of [train] for the arguments the two
    routes can pass as strings: a ddl is added with [add_ddl], a question
    with its sql with [add_question_sql]. *)
Definition train_dispatches : Prop :=
  (forall e ddl, ddl <> "" ->
     train None None (Some (PStr ddl)) e
       = bind (add_ddl e ddl) (fun _ => ret tt)) /\
  (forall e q sq, q <> "" -> sq <> "" ->
     train (Some (PStr q)) (Some (PStr sq)) None e
       = bind (add_question_sql e q sq) (fun _ => ret tt)).

(** The first statements of [train_ddl], up to the test of [ddl]: the body,
    its [ddl] entry, and the log line, which takes [len(ddl)] of a truthy
    [ddl] and slices one longer than 100. *)
Definition read_ddl (req : get_json) : caught + pyval :=
  match req with
  | NotJson => inl HTTPException
  | Parsed data =>
      match data_get data "ddl" with
      | Raise x => inl (Exn x)
      | Return ddl =>
          if truthy ddl then
            match py_len ddl with
            | Raise x => inl (Exn x)
            | Return n =>
                if (100 <? n)%nat then
                  match slice100 ddl with
                  | Raise x => inl (Exn x)
                  | Return _ => inr ddl
                  end
                else inr ddl
            end
          else inr ddl
      end
  end.

(** [POST /api/train/ddl] *)
Definition train_ddl (req : get_json) (e : env) (w : world)
  : response * world :=
  match read_ddl req with
  | inl x => (Failed500 x, w)
  | inr ddl =>
      if negb (truthy ddl) then (Required "DDL is required", w)
      else
        match train None None (Some ddl) e w with
        | (Return _, w') =>
            (Trained "DDL added to training data successfully", w')
        | (Raise x, w') => (Failed500 (Exn x), w')
        end
  end.

(** [POST /api/train/query] *)
Definition train_query (req : get_json) (e : env) (w : world)
  : response * world :=
  match req with
  | NotJson => (Failed500 HTTPException, w)
  | Parsed data =>
      match data_get data "question" with
      | Raise x => (Failed500 (Exn x), w)
      | Return question =>
          match data_get data "sql" with
          | Raise x => (Failed500 (Exn x), w)
          | Return sql =>
              if negb (truthy question) || negb (truthy sql) then
                (Required "Both question and SQL are required", w)
              else
                match train (Some question) (Some sql) None e w with
                | (Return _, w') =>
                    (Trained
                       "Question-SQL pair added to training data successfully",
                     w')
                | (Raise x, w') => (Failed500 (Exn x), w')
                end
          end
      end
  end.

(** [GET /api/training-data] *)
Definition training_data (w : world) : response * world :=
  match get_training_data w with
  | (Return data, w') => (TrainingData data, w')
  | (Raise x, w') => (Failed500 (Exn x), w')
  end.

Ltac unfold_ops :=
  unfold add_ddl, add_documentation, add_question_sql, get_related_ddl,
    get_related_documentation, get_similar_question_sql, get_training_data,
    remove_training_data, generate_embedding, add_embeddings,
    get_similar_embeddings, _save, _init_index, write_dimension, write_index,
    pickle_dump, write_file, IndexFlatL2_add, IndexFlatL2_search, bind, ret,
    raise, lift, get_self, set_self in *.

(** The cases of [read_ddl]. *)
Lemma read_ddl_falsy (m : gmap string pyval) :
  truthy (default PNone (m !! "ddl")) = false ->
  read_ddl (Parsed (PDict m)) = inr (default PNone (m !! "ddl")).
Proof. intros Hf. unfold read_ddl. simpl. by rewrite Hf. Qed.

Lemma read_ddl_value (req : get_json) (ddl : pyval) :
  read_ddl req = inr ddl ->
  exists m, req = Parsed (PDict m) /\ ddl = default PNone (m !! "ddl").
Proof.
  unfold read_ddl. destruct req as [data|]; [|done].
  destruct data; try done. simpl. intros Hr. eexists. split; [done|].
  repeat case_match; by simplify_eq.
Qed.

(** X15. [POST /api/train/ddl] answers 400 exactly when the body is a
    JSON object whose [ddl] entry is missing or falsy (null, false, 0, an
    empty string, list or object); a body that is not an object, and a
    [ddl] that is [true] or a non-zero number, are answered 500.  In all
    these cases the store and the files are untouched, whatever [train]
    is. *)
Theorem train_ddl_rejects (req : get_json) (e : env) (w : world) :
  (status (train_ddl req e w).1 = 400%nat <->
   exists m, req = Parsed (PDict m) /\
             truthy (default PNone (m !! "ddl")) = false) /\
  (status (train_ddl req e w).1 = 400%nat -> (train_ddl req e w).2 = w) /\
  ((forall m, req <> Parsed (PDict m)) ->
   status (train_ddl req e w).1 = 500%nat /\ (train_ddl req e w).2 = w) /\
  (forall m ddl,
     req = Parsed (PDict m) ->
     m !! "ddl" = Some ddl ->
     ddl = PBool true \/ (exists z, z <> 0 /\ ddl = PInt z)
       \/ ddl = PFloat true ->
     train_ddl req e w = (Failed500 (Exn TypeError), w)).
Proof.
  assert (H400 : status (train_ddl req e w).1 = 400%nat ->
                 (exists m, req = Parsed (PDict m) /\
                    truthy (default PNone (m !! "ddl")) = false) /\
                 (train_ddl req e w).2 = w).
  { unfold train_ddl. destruct (read_ddl req) as [x|ddl] eqn:Er; [done|].
    destruct (truthy ddl) eqn:Et; simpl.
    - by destruct (train None None (Some ddl) e w) as [[]].
    - intros _. destruct (read_ddl_value _ _ Er) as (m & -> & ->). eauto. }
  split; [split|split; [|split]].
  - apply H400.
  - intros (m & -> & Hf). unfold train_ddl.
    by rewrite (read_ddl_falsy m Hf), Hf.
  - apply H400.
  - intros Hm. unfold train_ddl.
    destruct (read_ddl req) as [x|ddl] eqn:Er; [done|].
    destruct (read_ddl_value _ _ Er) as (m & -> & _). by destruct (Hm m).
  - intros m ddl -> Hm Hd. unfold train_ddl, read_ddl. simpl. rewrite Hm.
    simpl. destruct Hd as [-> | [(z & Hz & ->) | ->]]; simpl; try done.
    apply Z.eqb_neq in Hz. by rewrite Hz.
Qed.

(** X16. [POST /api/train/query] answers 400 exactly when the body is a
    JSON object whose [question] or [sql] entry is missing or falsy, and 500
    when the body is not an object; in both cases the store and the files
    are untouched, whatever [train] is. *)
Theorem train_query_rejects (req : get_json) (e : env) (w : world) :
  (status (train_query req e w).1 = 400%nat <->
   exists m, req = Parsed (PDict m) /\
             (truthy (default PNone (m !! "question")) = false \/
              truthy (default PNone (m !! "sql")) = false)) /\
  (status (train_query req e w).1 = 400%nat -> (train_query req e w).2 = w) /\
  ((forall m, req <> Parsed (PDict m)) ->
   status (train_query req e w).1 = 500%nat /\ (train_query req e w).2 = w).
Proof.
  assert (Hnd : (forall m, req <> Parsed (PDict m)) ->
                status (train_query req e w).1 = 500%nat /\
                (train_query req e w).2 = w).
  { intros Hm. unfold train_query. destruct req as [data|]; [|done].
    destruct data; try done. by destruct (Hm m). }
  assert (H400 : status (train_query req e w).1 = 400%nat ->
                 (exists m, req = Parsed (PDict m) /\
                    (truthy (default PNone (m !! "question")) = false \/
                     truthy (default PNone (m !! "sql")) = false)) /\
                 (train_query req e w).2 = w).
  { unfold train_query. destruct req as [data|]; [|done].
    destruct data as [| | | | | |m]; try done. simpl.
    destruct (truthy (default PNone (m !! "question"))) eqn:Eq;
      destruct (truthy (default PNone (m !! "sql"))) eqn:Es; simpl;
      try (intros _; split; [exists m; auto | done]).
    by destruct (train _ _ _ e w) as [[]]. }
  split; [split|split]; try done.
  - apply H400.
  - intros (m & -> & Hf). unfold train_query. simpl.
    by destruct Hf as [-> | ->]; simpl; rewrite ?orb_true_r.
  - apply H400.
Qed.

Lemma read_ddl_str (m : gmap string pyval) (ddl : string) :
  m !! "ddl" = Some (PStr ddl) ->
  read_ddl (Parsed (PDict m)) = inr (PStr ddl).
Proof.
  intros Hm. unfold read_ddl. simpl. rewrite Hm. simpl.
  by repeat case_match.
Qed.

(** [train_ddl] on a body whose [ddl] is a non-empty string is [add_ddl]
    on that string. *)
Lemma train_ddl_str (m : gmap string pyval) (ddl : string) (e : env)
    (w : world) :
  train_dispatches ->
  m !! "ddl" = Some (PStr ddl) ->
  ddl <> "" ->
  train_ddl (Parsed (PDict m)) e w =
    match add_ddl e ddl w with
    | (Return _, w') =>
        (Trained "DDL added to training data successfully", w')
    | (Raise x, w') => (Failed500 (Exn x), w')
    end.
Proof.
  intros [Hd _] Hm Hne. unfold train_ddl. rewrite (read_ddl_str m ddl Hm).
  simpl. apply String.eqb_neq in Hne. rewrite Hne. simpl.
  rewrite Hd by (by apply String.eqb_neq). unfold bind, ret.
  by destruct (add_ddl e ddl w) as [[]].
Qed.

Lemma add_ddl_steps (e : env) (ddl : string) (w : world) :
  add_ddl e ddl w =
    match provider e ddl with
    | None => (Raise ProviderError, w)
    | Some v =>
        match add_embeddings e v
                (<["id" := uuid4 e]>
                   (<["type" := "ddl"]> (<["content" := ddl]> ∅))) w with
        | (Return _, w') => (Return (uuid4 e), w')
        | (Raise x, w') => (Raise x, w')
        end
    end.
Proof.
  unfold add_ddl, generate_embedding, bind, ret, raise.
  destruct (provider e ddl); [|done].
  by destruct (add_embeddings _ _ _ w) as [[[]|x] w'].
Qed.

(** X17. What the listing shows after a training request for a non-empty
    ddl string. After a 200 answer, [GET /api/training-data] lists the
    former ledger followed by the new record. After an add that appended in
    memory and then failed to write the index or the ledger file, the answer
    is 500, and the listing shows the new record all the same. *)
Theorem training_request_then_listing (m : gmap string pyval) (ddl : string)
    (e : env) (w : world) :
  train_dispatches ->
  m !! "ddl" = Some (PStr ddl) ->
  ddl <> "" ->
  let md := <["id" := uuid4 e]>
              (<["type" := "ddl"]> (<["content" := ddl]> ∅)) in
  let r := train_ddl (Parsed (PDict m)) e w in
  let listed := (TrainingData (metadata (self w) ++ [md])%list, r.2) in
  (status r.1 = 200%nat -> training_data r.2 = listed) /\
  (forall v,
     provider e ddl = Some v ->
     reaches_save e v (self w) ->
     io_index e <> Written \/ io_metadata e <> Written ->
     status r.1 = 500%nat /\ training_data r.2 = listed).
Proof.
  intros Ht Hm Hne md r listed. subst r listed.
  rewrite (train_ddl_str m ddl e w Ht Hm Hne), (add_ddl_steps e ddl w).
  fold md. unfold training_data, get_training_data, bind, get_self, ret.
  destruct (provider e ddl) as [v|] eqn:Ep; simpl.
  - split.
    + destruct (add_embeddings e v md w) as [[[]|x] w'] eqn:Ea; [|done].
      intros _. destruct (add_embeddings_returns _ _ _ _ _ Ea) as [Hmd _].
      simpl. by rewrite Hmd.
    + intros v' [= <-] Hr Hio.
      destruct (add_embeddings_save_fails e v md w Hr Hio) as [H1 H2].
      destruct (add_embeddings e v md w) as [[[]|x] w'] eqn:Ea;
        simpl in *; [done|].
      split; [done|]. by rewrite H2.
  - split; [done|]. intros v [=].
Qed.

End App.

(** * The process-wide instance: [init_vanna] and [get_vanna]

    The module keeps one [VannaConfig] instance in the global
    [_vanna_instance].  The calls into [os], [sqlite3], [openai] and the
    vanna package are given by what they answer; log lines are left out. *)

(** Whether each external step of one [init_vanna] succeeds. *)
Record startup := {
  makedirs_faiss : bool;
  makedirs_sqlite : bool;
  create_database : bool;
  openai_client : bool;
  connect_to_sqlite : bool;
}.

(** What [init_vanna] can raise: an [OSError] of [os.makedirs], an error of
    [sqlite3], an error of the [OpenAI] constructor, or what the constructor
    of the store raises. *)
Inductive boot_exn :=
| OSError
| SqliteError
| OpenAIError
| StoreError (x : exn).

Section Bootstrap.
Context `{Faiss}.

(** [os.path.abspath], [os.path.dirname], [os.path.join(dir, 'data', name)]
    and [__file__]. *)
Variable abspath : string -> string.
Variable dirname : string -> string.
Variable join_data : string -> string -> string.
Variable __file__ : string.

(** The instance: the attributes [FAISS_VectorStore.__init__] sets from
    [config], the store it loaded, the chat model, and the database
    [connect_to_sqlite] opened. *)
Record VannaConfig := {
  path : string;
  embedding_api_key : option string;
  embedding_base_url : string;
  embedding_model : string;
  model : string;
  store : FAISS_VectorStore;
  sqlite : option string;
}.

(** The process: the global, the snapshot files under each directory, and
    the database files that exist. *)
Record process := {
  _vanna_instance : option VannaConfig;
  directory : string -> disk;
  databases : gset string;
}.

(** [a or b] on optional strings: the first unless it is [None] or
    empty. *)
Definition py_or (a b : option string) : option string :=
  match a with
  | Some s => if String.eqb s "" then b else Some s
  | None => b
  end.

Definition init_vanna (environ : gmap string string) (a : startup)
    (p : process) : (boot_exn + VannaConfig) * process :=
  match _vanna_instance p with
  | Some vn => (inr vn, p)
  | None =>
      let base_dir := dirname (abspath __file__) in
      let faiss_path :=
        default (join_data base_dir "faiss") (environ !! "FAISS_PATH") in
      let sqlite_path :=
        default (join_data base_dir "database.db")
          (environ !! "SQLITE_DB_PATH") in
      let deepseek_model :=
        default "deepseek-chat" (environ !! "DEEPSEEK_MODEL") in
      let embedding_api_key := environ !! "EMBEDDING_API_KEY" in
      let embedding_base_url :=
        default "https://dashscope.aliyuncs.com/compatible-mode/v1"
          (environ !! "EMBEDDING_BASE_URL") in
      let embedding_model :=
        default "text-embedding-v3" (environ !! "EMBEDDING_MODEL") in
      let faiss_path := abspath faiss_path in
      let sqlite_path := abspath sqlite_path in
      if negb (makedirs_faiss a) then (inl OSError, p)
      else if negb (makedirs_sqlite a) then (inl OSError, p)
      else if bool_decide (sqlite_path ∉ databases p)
                && negb (create_database a)
      then (inl SqliteError, p)
      else
        let dbs := {[sqlite_path]} ∪ databases p in
        let p1 := {| _vanna_instance := None; directory := directory p;
                     databases := dbs |} in
        if negb (openai_client a) then (inl OpenAIError, p1)
        else
          match __init__ None (directory p faiss_path) with
          | Raise x => (inl (StoreError x), p1)
          | Return s =>
              let vn := {| path := faiss_path;
                           embedding_api_key := py_or embedding_api_key None;
                           embedding_base_url := embedding_base_url;
                           embedding_model := embedding_model;
                           model := deepseek_model;
                           store := s;
                           sqlite := None |} in
              if negb (connect_to_sqlite a) then
                (inl SqliteError,
                 {| _vanna_instance := Some vn; directory := directory p;
                    databases := dbs |})
              else
                let vn' := {| path := faiss_path;
                              embedding_api_key
                                := py_or embedding_api_key None;
                              embedding_base_url := embedding_base_url;
                              embedding_model := embedding_model;
                              model := deepseek_model;
                              store := s;
                              sqlite := Some sqlite_path |} in
                (inr vn',
                 {| _vanna_instance := Some vn'; directory := directory p;
                    databases := dbs |})
          end
  end.

Definition get_vanna (environ : gmap string string) (a : startup)
    (p : process) : (boot_exn + VannaConfig) * process :=
  match _vanna_instance p with
  | None => init_vanna environ a p
  | Some vn => (inr vn, p)
  end.

(** The directories [init_vanna] resolves from the environment. *)
Definition faiss_path_of (environ : gmap string string) : string :=
  abspath (default (join_data (dirname (abspath __file__)) "faiss")
             (environ !! "FAISS_PATH")).

Definition sqlite_path_of (environ : gmap string string) : string :=
  abspath (default (join_data (dirname (abspath __file__)) "database.db")
             (environ !! "SQLITE_DB_PATH")).

(** X18. The instance is assigned before the database is connected. When
    every step of [init_vanna] up to the constructor succeeds and
    [connect_to_sqlite] raises, [init_vanna] raises, but the global holds
    the instance with the store the constructor loaded and no database;
    every later [get_vanna] returns that instance without raising and
    without connecting, whatever the environment then says.  When
    [init_vanna] fails although [connect_to_sqlite] would succeed, the
    global stays unset and a later [get_vanna] starts over. *)
Theorem connect_failure_leaves_instance (environ : gmap string string)
    (a : startup) (p : process) :
  _vanna_instance p = None ->
  let p' := (init_vanna environ a p).2 in
  (forall s,
     makedirs_faiss a = true ->
     makedirs_sqlite a = true ->
     sqlite_path_of environ ∈ databases p \/ create_database a = true ->
     openai_client a = true ->
     __init__ None (directory p (faiss_path_of environ)) = Return s ->
     connect_to_sqlite a = false ->
     (init_vanna environ a p).1 = inl SqliteError /\
     exists vn,
       _vanna_instance p' = Some vn /\ store vn = s /\ sqlite vn = None /\
       forall environ' a', get_vanna environ' a' p' = (inr vn, p')) /\
  (forall x,
     (init_vanna environ a p).1 = inl x ->
     connect_to_sqlite a = true ->
     _vanna_instance p' = None /\
     forall environ' a',
       get_vanna environ' a' p' = init_vanna environ' a' p').
Proof.
  intros Hp. simpl. split.
  - intros s H1 H2 H3 H4 H5 H6.
    unfold init_vanna, faiss_path_of, sqlite_path_of in *.
    rewrite Hp, H1, H2. simpl.
    assert (Hb : forall b : bool,
               (b = true -> create_database a = true) ->
               b && negb (create_database a) = false).
    { intros [] Hb; [|done]. by rewrite Hb. }
    rewrite Hb.
    2:{ intros Hd%bool_decide_eq_true. by destruct H3. }
    rewrite H4. simpl. rewrite H5, H6. simpl.
    split; [reflexivity|]. eexists. split; [reflexivity|].
    split; [reflexivity|]. split; [reflexivity|]. intros. reflexivity.
  - intros x Hx Hc.
    assert (Hn : _vanna_instance (init_vanna environ a p).2 = None).
    { revert Hx. unfold init_vanna. rewrite Hp, Hc.
      destruct (makedirs_faiss a); [|done].
      destruct (makedirs_sqlite a); [|done]. simpl.
      destruct (_ && _); [done|]. destruct (openai_client a); [|done].
      simpl. by destruct (__init__ _ _). }
    split; [done|]. intros environ' a'. unfold get_vanna. by rewrite Hn.
Qed.

End Bootstrap.

(** * The further properties at concrete inputs *)

(** Environments in which the provider fails, and in which the dimension
    file cannot be written. *)
Definition provider_down (id : string) : @env reference :=
  @Build_env reference (fun _ => None) id Written Written Written.

Definition dimension_write_fails (v : list Z) (id : string) : @env reference :=
  @Build_env reference (fun _ => Some v) id (Failed true) Written Written.

(** A store loaded from a ledger file that another program wrote: its one
    record is of kind ddl and has no [content]. *)
Definition foreign : @world reference :=
  {| self := {| dimension := Some 2;
                index := Some (@Build_IndexFlatL2 reference 2%nat [[1; 2]]);
                metadata := [<["type" := "ddl"]> ∅] |};
     files := no_files |}.

(** A store whose dimension file said 3 for an index of width 2. *)
Definition disagreeing : @world reference :=
  {| self := {| dimension := Some 3;
                index := Some (@Build_IndexFlatL2 reference 2%nat [[1; 2]]);
                metadata := [<["type" := "ddl"]> (<["content" := "t"]> ∅)] |};
     files := no_files |}.

(** [train] as the vanna package dispatches it on the arguments of the two
    routes. *)
Definition reference_train (question sql ddl : option pyval)
    (e : @env reference) : @M reference unit :=
  match question, sql, ddl with
  | None, None, Some (PStr s) => bind (add_ddl e s) (fun _ => ret tt)
  | Some (PStr q), Some (PStr sq), None =>
      bind (add_question_sql e q sq) (fun _ => ret tt)
  | _, _, _ => raise TypeError
  end.

Lemma reference_train_dispatches : train_dispatches reference_train.
Proof. split; intros; reflexivity. Qed.

(** A process that has not initialized, on a machine with no snapshot and
    no database, and a start in which only the connection fails. *)
Definition unix_join (dir name : string) : string :=
  (dir ++ "/data/" ++ name)%string.

Definition cold : @process reference :=
  {| _vanna_instance := None; directory := fun _ => no_files;
     databases := ∅ |}.

Definition connection_fails : startup :=
  {| makedirs_faiss := true; makedirs_sqlite := true;
     create_database := true; openai_client := true;
     connect_to_sqlite := false |}.

Lemma add_appends_pair_witness :
  let c := AddDdl "CREATE TABLE t(id INT)" in
  let e := answers [1; 2] "id1" in
  let w' := (perform c e fresh).2 in
  length (vectors (self w')) = 1%nat /\ length (metadata (self w')) = 1%nat.
Proof.
  intros c e w'.
  destruct (add_appends_pair (H:=reference) c e
              (default ∅ (added_record c e)) fresh eq_refl)
    as [[_ Hm] | (v & _ & Hv & Hm)].
  - vm_compute in Hm. discriminate Hm.
  - fold w' in Hv, Hm. rewrite Hv, Hm, !length_app. split; reflexivity.
Defined.

Lemma successful_add_is_listed_witness :
  let c := AddDdl "CREATE TABLE t(id INT)" in
  let e := answers [1; 2] "id1" in
  perform c e fresh = (Return (VId "id1"), one_ddl) /\
  aligned (self fresh) /\
  (get_training_data one_ddl).1
    = Return [<["id" := "id1"]>
                (<["type" := "ddl"]>
                   (<["content" := "CREATE TABLE t(id INT)"]> ∅))] /\
  vectors (self one_ddl) !! 0%nat = Some [1; 2].
Proof.
  intros c e.
  assert (Hp : perform c e fresh = (Return (VId "id1"), one_ddl))
    by (vm_compute; reflexivity).
  assert (Ha : aligned (self fresh)) by reflexivity.
  destruct (successful_add_is_listed (H:=reference) c e
              (default ∅ (added_record c e)) fresh one_ddl (VId "id1")
              eq_refl Hp) as (_ & _ & Hl & Hpos).
  destruct (Hpos Ha) as (v & Hv & _ & Hvec). injection Hv as <-.
  split; [exact Hp|]. split; [exact Ha|].
  split; [rewrite Hl; reflexivity | exact Hvec].
Defined.

Lemma successful_add_is_durable_witness :
  let c := AddDdl "CREATE TABLE t(id INT)" in
  let e := answers [1; 2] "id1" in
  perform c e fresh = (Return (VId "id1"), one_ddl) /\
  __init__ (Some 7) (files one_ddl) = Return (self one_ddl).
Proof.
  intros c e.
  assert (Hp : perform c e (run [] {| self := empty_store; files := no_files |})
               = (Return (VId "id1"), one_ddl))
    by (vm_compute; reflexivity).
  split; [exact Hp|].
  apply (successful_add_is_durable (H:=reference) None (Some 7) no_files
           empty_store [] c e (default ∅ (added_record c e)) (VId "id1")
           one_ddl eq_refl);
    [repeat constructor | reflexivity | exact Hp].
Defined.

Lemma first_add_attempt_locks_dimension_witness :
  let c := AddDdl "CREATE TABLE t(id INT)" in
  let e := dimension_write_fails [1; 2] "id1" in
  (perform c e fresh).1 = Raise StorageError /\
  locked 2 (self (perform c e fresh).2) /\
  perform c (answers [1; 2; 3] "id2") (perform c e fresh).2
    = (Raise DimensionMismatch, (perform c e fresh).2).
Proof.
  intros c e.
  destruct (first_add_attempt_locks_dimension (H:=reference) c e
              (default ∅ (added_record c e)) [1; 2] fresh
              eq_refl eq_refl eq_refl) as [Hl Hm].
  split; [vm_compute; reflexivity|]. split; [exact Hl|].
  apply (Hm [] c (answers [1; 2; 3] "id2")
           (default ∅ (added_record c (answers [1; 2; 3] "id2"))) [1; 2; 3]
           eq_refl eq_refl).
  simpl. discriminate.
Defined.

Lemma first_add_on_empty_start_witness :
  let c := AddDdl "CREATE TABLE u(id INT)" in
  let e := answers [1; 2; 3] "id9" in
  metadata_path ledger_missing = None /\
  exists s0,
    __init__ (Some 7) ledger_missing = Return s0 /\
    dimension (self (perform c e {| self := s0; files := ledger_missing |}).2)
      = Some 3.
Proof.
  intros c e. split; [reflexivity|].
  destruct (first_add_on_empty_start (H:=reference) (Some 7) ledger_missing
              c e (default ∅ (added_record c e)) [1; 2; 3]
              (or_intror eq_refl) eq_refl eq_refl eq_refl eq_refl eq_refl)
    as (s0 & Hs & Hp).
  exists s0. split; [exact Hs|]. cbv zeta in Hp. rewrite Hp. reflexivity.
Defined.

Lemma provider_failure_changes_nothing_witness :
  perform (AddDdl "CREATE TABLE u(id INT)") (provider_down "id9") one_ddl
    = (Raise ProviderError, one_ddl) /\
  perform (GetRelatedDdl "which tables") (provider_down "") one_ddl
    = (Raise ProviderError, one_ddl).
Proof.
  split;
    apply (provider_failure_changes_nothing (H:=reference));
    (discriminate || (intros; discriminate) || reflexivity).
Defined.

Lemma similar_embeddings_count_witness :
  aligned (self trained) /\
  exists rs,
    get_similar_embeddings (H:=reference) [1; 2] 2 trained
      = (Return rs, trained) /\
    length rs = 2%nat.
Proof.
  assert (Ha : aligned (self trained)) by (vm_compute; reflexivity).
  assert (Hix : index (self trained)
                = Some (@Build_IndexFlatL2 reference 2%nat
                          [[1; 2]; [3; 4]; [5; 6]]))
    by (vm_compute; reflexivity).
  split; [exact Ha|].
  exact (similar_embeddings_count (H:=reference) trained _ [1; 2] 2
           reference_knn_contract Ha Hix eq_refl ltac:(repeat constructor)).
Defined.

Lemma related_ddl_missing_content_witness :
  get_related_ddl (answers [1; 2] "") "which tables" foreign
    = (Raise KeyError, foreign).
Proof.
  apply (related_ddl_missing_content (H:=reference) foreign
           (answers [1; 2] "") "which tables" [1; 2]
           (@Build_IndexFlatL2 reference 2%nat [[1; 2]])
           (<["type" := "ddl"]> ∅) reference_knn_contract eq_refl eq_refl);
    [discriminate | reflexivity | | reflexivity | reflexivity].
  replace (hits _ _) with [(<["type" := "ddl"]> ∅ : dict)]
    by (vm_compute; reflexivity).
  apply list_elem_of_here.
Defined.

Lemma width_disagreement_freezes_store_witness :
  (exists x,
     perform (AddDdl "CREATE TABLE u(id INT)") (answers [1; 2] "id9")
       disagreeing = (Raise x, disagreeing)) /\
  run [(AddDdl "CREATE TABLE u(id INT)", answers [1; 2] "id9");
       (AddDdl "CREATE TABLE u(id INT)", answers [1; 2; 3] "id9")]
    disagreeing = disagreeing.
Proof.
  destruct (width_disagreement_freezes_store (H:=reference) disagreeing
              (@Build_IndexFlatL2 reference 2%nat [[1; 2]]) eq_refl
              ltac:(discriminate)) as [H1 H2].
  split; [|apply H2].
  exact (H1 (AddDdl "CREATE TABLE u(id INT)") (answers [1; 2] "id9") _
           eq_refl).
Defined.

Lemma retry_after_storage_error_duplicates_witness :
  let c := AddDocumentation "t stores widgets" in
  let e1 := ledger_write_fails [1; 2] "id2" in
  let e2 := answers [1; 2] "id3" in
  reaches_save e1 [1; 2] (self one_ddl) /\
  (perform c e1 one_ddl).1 = Raise StorageError /\
  length (metadata (self (perform c e2 (perform c e1 one_ddl).2).2))
    = 3%nat.
Proof.
  intros c e1 e2.
  assert (Hr : reaches_save e1 [1; 2] (self one_ddl))
    by (vm_compute; split; reflexivity).
  assert (Hio : io_index e1 <> Written \/ io_metadata e1 <> Written)
    by (right; discriminate).
  pose proof (retry_after_storage_error_duplicates (H:=reference) c e1 e2
                (default ∅ (added_record c e1))
                (default ∅ (added_record c e2)) [1; 2] one_ddl) as Ht.
  destruct Ht as (H1 & _ & H3);
    [reflexivity | reflexivity | reflexivity | reflexivity | exact Hr
    | exact Hio | reflexivity | reflexivity |].
  split; [exact Hr|]. split; [exact H1|].
  rewrite H3, length_app.
  replace (length (metadata (self one_ddl))) with 1%nat
    by (vm_compute; reflexivity).
  reflexivity.
Defined.

Lemma ledger_write_failure_then_restart_witness :
  let c := AddDocumentation "t stores widgets" in
  let e := ledger_write_fails [3; 4] "id2" in
  (perform c e one_ddl).1 = Raise StorageError /\
  exists s,
    __init__ None (files (perform c e one_ddl).2) = Return s /\
    gap s = 1.
Proof.
  intros c e.
  assert (Hix : index (self one_ddl)
                = Some (@Build_IndexFlatL2 reference 2%nat [[1; 2]]))
    by (vm_compute; reflexivity).
  assert (Hmp : metadata_path (files one_ddl)
                = Some (Valid (metadata (self one_ddl))))
    by (vm_compute; reflexivity).
  assert (Hd : dimension_on_disk (self one_ddl) (files one_ddl)).
  { vm_compute. split; [reflexivity | eexists; reflexivity]. }
  assert (Hr : reaches_save e [3; 4] (self one_ddl))
    by (vm_compute; split; reflexivity).
  destruct (ledger_write_failure_then_restart (H:=reference) c e
              (default ∅ (added_record c e)) [3; 4] one_ddl _ None
              eq_refl eq_refl Hix Hmp Hd Hr eq_refl eq_refl) as [H1 H2].
  split; [exact H1|]. eexists. split; [exact H2|].
  vm_compute. reflexivity.
Defined.

Lemma train_ddl_rejects_witness :
  status (train_ddl reference_train (Parsed (PDict ∅)) (answers [1; 2] "id1")
            fresh).1 = 400%nat /\
  status (train_ddl reference_train (Parsed (PList [PStr "CREATE TABLE t"]))
            (answers [1; 2] "id1") fresh).1 = 500%nat /\
  train_ddl reference_train (Parsed (PDict {["ddl" := PInt 5]}))
    (answers [1; 2] "id1") fresh
    = (Failed500 (Exn TypeError), fresh).
Proof.
  split; [|split].
  - apply (proj1 (train_ddl_rejects (H:=reference) reference_train _ _ _)).
    exists ∅. split; reflexivity.
  - apply (proj1 (proj2 (proj2 (train_ddl_rejects (H:=reference)
                                  reference_train _ _ _)))).
    intros m. discriminate.
  - apply (proj2 (proj2 (proj2 (train_ddl_rejects (H:=reference)
                                  reference_train _ _ _)))
             {["ddl" := PInt 5]} (PInt 5) eq_refl
             (lookup_singleton_eq _ _)).
    right. left. exists 5. split; [discriminate | reflexivity].
Defined.

Lemma train_query_rejects_witness :
  status (train_query reference_train
            (Parsed (PDict {["question" := PStr "how many rows"]}))
            (answers [1; 2] "id1") fresh).1 = 400%nat /\
  status (train_query reference_train NotJson (answers [1; 2] "id1")
            fresh).1 = 500%nat.
Proof.
  split.
  - apply (proj1 (train_query_rejects (H:=reference) reference_train _ _ _)).
    eexists. split; [reflexivity|]. right. reflexivity.
  - apply (proj2 (proj2 (train_query_rejects (H:=reference) reference_train
                           _ _ _))).
    intros m. discriminate.
Defined.

Lemma training_request_then_listing_witness :
  let req := Parsed (PDict {["ddl" := PStr "CREATE TABLE u(id INT)"]}) in
  let e := ledger_write_fails [3; 4] "id2" in
  let r := train_ddl reference_train req e one_ddl in
  status r.1 = 500%nat /\
  exists data, (training_data r.2).1 = TrainingData data /\
               length data = 2%nat.
Proof.
  intros req e r.
  assert (Hr : reaches_save e [3; 4] (self one_ddl))
    by (vm_compute; split; reflexivity).
  assert (Hio : io_index e <> Written \/ io_metadata e <> Written)
    by (right; discriminate).
  pose proof (training_request_then_listing (H:=reference) reference_train
                {["ddl" := PStr "CREATE TABLE u(id INT)"]}
                "CREATE TABLE u(id INT)" e one_ddl
                reference_train_dispatches (lookup_singleton_eq _ _)) as Ht.
  destruct Ht as [_ Hf]; [discriminate|].
  destruct (Hf [3; 4]) as [H1 H2]; [reflexivity | exact Hr | exact Hio |].
  split; [exact H1|]. eexists. subst r req. rewrite H2.
  split; [reflexivity|]. rewrite length_app.
  replace (length (metadata (self one_ddl))) with 1%nat
    by (vm_compute; reflexivity).
  reflexivity.
Defined.

Lemma connect_failure_leaves_instance_witness :
  let boot := init_vanna (fun s => s) (fun _ => "/app") unix_join
                "/app/vanna_config.py" ∅ connection_fails cold in
  boot.1 = inl SqliteError /\
  exists vn,
    _vanna_instance boot.2 = Some vn /\ sqlite vn = None /\
    get_vanna (fun s => s) (fun _ => "/app") unix_join
      "/app/vanna_config.py" ∅ connection_fails boot.2 = (inr vn, boot.2).
Proof.
  intros boot.
  destruct (proj1 (connect_failure_leaves_instance (H:=reference)
                     (fun s => s) (fun _ => "/app") unix_join
                     "/app/vanna_config.py" ∅ connection_fails cold eq_refl)
              empty_store eq_refl eq_refl (or_intror eq_refl) eq_refl
              eq_refl eq_refl) as (H1 & vn & H2 & _ & H3 & H4).
  split; [exact H1|]. exists vn. split; [exact H2|]. split; [exact H3|].
  apply H4.
Defined.
